(** * data.all AWS handlers, resolvers and CDK stacks: a shallow embedding

  The Python sources embedded here are

  - [backend/dataall/aws/handlers/s3.py]          (class [S3])
  - [backend/dataall/aws/handlers/athena.py]      (class [Athena])
  - [backend/dataall/api/Objects/Tenant/resolvers.py]
  - [deploy/stacks/param_store_stack.py]          (class [ParamStoreStack])
  - [backend/dataall/modules/omics/cdk/omics_stack.py]

  Python functions become functions in a state-and-exception monad.
  The state holds what the code can observe or change (log records,
  the requests sent to AWS, ORM objects, files, CDK constructs); the
  answers of the outside world (AWS, STS, the database) are an
  explicit environment argument. *)

From Stdlib Require Import ZArith Lia.
From stdpp Require Import base option list strings gmap.

Open Scope string_scope.
Set Warnings "-register-all".

(** ** Python values, exceptions and calls *)

Module Py.

(** JSON-like values: what boto3 takes and returns, and what the
    handlers build as policies.  A [dict] keeps insertion order. *)
Inductive value : Type :=
| VNone
| VBool (b : bool)
| VInt (n : Z)
| VStr (s : string)
| VList (l : list value)
| VDict (d : list (string * value)).

(** Why a call could not bind its arguments. *)
Inductive type_error : Type :=
| MissingArguments (fname : string) (names : list string)
| UnexpectedKeyword (fname : string) (kw : string)
| NotSubscriptable (what : string).

(** The exceptions the embedded code meets.  All of them are
    subclasses of [Exception]. *)
Inductive exn : Type :=
| ClientError (operation code : string)
| TypeError (why : type_error)
| NameError (name : string)
| AttributeError (obj attr : string)
| KeyError (key : string)
| ObjectNotFound (kind uri : string)
| OSError (msg : string)
| OtherException (msg : string).

(** [except ClientError] *)
Definition is_ClientError (e : exn) : bool :=
  match e with ClientError _ _ => true | _ => false end.

(** [except Exception] and the bare [except:] *)
Definition is_Exception (e : exn) : bool := true.

Inductive res (A : Type) : Type :=
| Ret (a : A)
| Raise (e : exn).
Arguments Ret {A} a.
Arguments Raise {A} e.

(** An argument at a call site: written there or left out. *)
Inductive arg (A : Type) : Type :=
| Omitted
| Passed (a : A).
Arguments Omitted {A}.
Arguments Passed {A} a.

Definition omitted {A} (name : string) (a : arg A) : list string :=
  match a with Omitted => [name] | Passed _ => [] end.

(** [d[k]] on a value *)
Fixpoint assoc (k : string) (d : list (string * value)) : option value :=
  match d with
  | [] => None
  | (k', v) :: d' => if String.eqb k k' then Some v else assoc k d'
  end.

Definition getitem (v : value) (k : string) : res value :=
  match v with
  | VDict d => match assoc k d with
               | Some x => Ret x
               | None => Raise (KeyError k)
               end
  | _ => Raise (TypeError (NotSubscriptable k))
  end.

(** [v[k1][k2]...] *)
Fixpoint getpath (v : value) (keys : list string) : res value :=
  match keys with
  | [] => Ret v
  | k :: rest => match getitem v k with
                 | Ret x => getpath x rest
                 | Raise e => Raise e
                 end
  end.

(** Python truthiness of a [str] *)
Definition truthy_str (s : string) : bool :=
  match s with EmptyString => false | _ => true end.

(** [s[:n]] *)
Fixpoint take_str (n : nat) (s : string) : string :=
  match n, s with
  | S n', String c s' => String c (take_str n' s')
  | _, _ => EmptyString
  end.

(** [str(b)] for a [bool] *)
Definition str_bool (b : bool) : string := if b then "True" else "False".

(** *** The monad: state passing with exceptions *)

Definition M (St A : Type) : Type := St -> res A * St.

Definition ret {St A} (a : A) : M St A := fun s => (Ret a, s).

Definition raise {St A} (e : exn) : M St A := fun s => (Raise e, s).

Definition bind {St A B} (m : M St A) (k : A -> M St B) : M St B :=
  fun s => match m s with
           | (Ret a, s') => k a s'
           | (Raise e, s') => (Raise e, s')
           end.

#[global] Instance M_ret {St} : MRet (M St) := fun A => @ret St A.
#[global] Instance M_bind {St} : MBind (M St) := fun A B k m => @bind St A B m k.

Definition lift {St A} (r : res A) : M St A := fun s => (r, s).

Definition modify {St} (f : St -> St) : M St unit := fun s => (Ret tt, f s).

Definition gets {St A} (f : St -> A) : M St A := fun s => (Ret (f s), s).

(** [try: body / except C as e: handler e] *)
Definition try_except {St A} (body : M St A) (catches : exn -> bool)
           (handler : exn -> M St A) : M St A :=
  fun s => match body s with
           | (Ret a, s') => (Ret a, s')
           | (Raise e, s') => if catches e then handler e s' else (Raise e, s')
           end.

(** [try: body / except C as e: handler e / else: els]; an exception
    of the [else] suite is not caught. *)
Definition try_except_else {St A B} (body : M St A) (catches : exn -> bool)
           (handler : exn -> M St B) (els : A -> M St B) : M St B :=
  fun s => match body s with
           | (Ret a, s') => els a s'
           | (Raise e, s') => if catches e then handler e s' else (Raise e, s')
           end.

(** A global name used in a module body: bound by an import or a
    definition of that module, or a [NameError]. *)
Definition lookup_name {St} (globals : list string) (n : string) : M St unit :=
  if bool_decide (n ∈ globals) then ret tt else raise (NameError n).

(** An attribute looked up on a class: one of the attributes the class
    has, or an [AttributeError]. *)
Definition class_attr {St} (cls : string) (attrs : list string) (name : string)
  : M St unit :=
  if bool_decide (name ∈ attrs) then ret tt else raise (AttributeError cls name).

(** *** Logging *)

Inductive level : Type := INFO | WARNING | ERROR.

(** The pieces of a formatted message: literal text, and the values
    and exceptions interpolated into it. *)
Inductive piece : Type :=
| T (s : string)
| V (v : value)
| E (e : exn).

Record log_record : Type := LogRecord { lvl : level; msg : list piece }.

End Py.

Export Py.

(** ** boto3, STS and the database, as the handlers see them *)

Module Aws.

(** [botocore.config.Config(signature_version=.., s3={..})] *)
Record Config : Type := mkConfig {
  signature_version : string;
  s3_options : list (string * string)
}.

(** A boto3 session: in the tenant account through the pivot role, or
    in the central account. *)
Inductive session : Type :=
| RemoteSession (accountid : string) (role : option string)
| CentralSession.

(** [session.client(service, region_name=.., config=..)] *)
Record boto_client : Type := mkClient {
  c_session : session;
  c_service : string;
  c_region : string;
  c_config : option Config
}.

(** What leaves the process, in program order. *)
Inductive event : Type :=
| EvRemoteSession (accountid : string) (role : option string)
| EvGetSession
| EvApi (cli : boto_client) (operation : string) (params : list (string * value))
| EvDbGet (uri : string)
| EvDispatch (path : string) (task_uri : string).

Definition is_aws_event (ev : event) : bool :=
  match ev with
  | EvRemoteSession _ _ | EvGetSession | EvApi _ _ _ => true
  | EvDbGet _ | EvDispatch _ _ => false
  end.

(** [sts.py] ([SessionHelper]) and botocore are not part of the embedded
    sources: their answers are an environment.  [None] means that a
    session was obtained, [Some e] that obtaining it raised [e]. *)
Record env : Type := mkEnv {
  sts_remote_session : string -> option string -> option exn;
  sts_get_session : option exn;
  api : boto_client -> string -> list (string * value) -> res value;
  json_dumps : value -> string
}.

(** [db.models.DatasetStorageLocation] *)
Record DatasetStorageLocation : Type := mkLocation {
  locationUri : string;
  AWSAccountId : string;
  region : string;
  S3BucketName : string;
  S3Prefix : string;
  locationCreated : bool
}.

(** [db.models.Task] *)
Record Task : Type := mkTask {
  taskUri : string;
  targetUri : string;
  action : string
}.

(** The database engine handed to a handler; its rows live in
    [objects] below. *)
Record Engine : Type := mkEngine { engine_envname : string }.

(** A Python variable bound to an ORM object holds a reference to it;
    the ORM keeps one object per primary key. *)
Definition ref : Type := string.

Record state : Type := mkState {
  logs : list log_record;
  trace : list event;
  objects : gmap string DatasetStorageLocation
}.

Definition add_log (r : log_record) (s : state) : state :=
  mkState (logs s ++ [r]) (trace s) (objects s).

Definition add_event (ev : event) (s : state) : state :=
  mkState (logs s) (trace s ++ [ev]) (objects s).

Definition set_objects (o : gmap string DatasetStorageLocation) (s : state) : state :=
  mkState (logs s) (trace s) o.

Definition log (l : level) (m : list piece) : M state unit :=
  modify (add_log (LogRecord l m)).

Definition emit (ev : event) : M state unit := modify (add_event ev).

(** [SessionHelper.remote_session(accountid=.., role=..)] *)
Definition remote_session (E : env) (accountid : string) (role : option string)
  : M state session :=
  emit (EvRemoteSession accountid role);;
  match sts_remote_session E accountid role with
  | None => mret (RemoteSession accountid role)
  | Some e => raise e
  end.

(** [SessionHelper.get_session()] *)
Definition get_session (E : env) : M state session :=
  emit EvGetSession;;
  match sts_get_session E with
  | None => mret CentralSession
  | Some e => raise e
  end.

(** A method call on a boto3 client. *)
Definition call (E : env) (cli : boto_client) (operation : string)
           (params : list (string * value)) : M state value :=
  emit (EvApi cli operation params);;
  lift (api E cli operation params).

(** [obj.attr] where [obj] is a variable holding a location; a reference
    to no object reads like [None]. *)
Definition getattr {A} (location : ref) (name : string)
           (field : DatasetStorageLocation -> A) : M state A :=
  found ← gets (fun s => objects s !! location);
  match found with
  | Some o => mret (field o)
  | None => raise (AttributeError "NoneType" name)
  end.

Definition with_locationCreated (b : bool) (o : DatasetStorageLocation)
  : DatasetStorageLocation :=
  mkLocation (locationUri o) (AWSAccountId o) (region o) (S3BucketName o)
             (S3Prefix o) b.

(** [location.locationCreated = b] *)
Definition set_locationCreated (location : ref) (b : bool) : M state unit :=
  found ← gets (fun s => objects s !! location);
  match found with
  | Some o =>
      modify (fun s => set_objects (<[location := with_locationCreated b o]> (objects s)) s)
  | None => raise (AttributeError "NoneType" "locationCreated")
  end.

(** Modelled from the spec: [db.api.DatasetStorageLocation.get_location_by_uri]
    is not among the sources.  The spec's data model says that a task's
    target resolves to exactly one persisted entity and that absence is a
    hard failure: the lookup returns the one object stored under the URI
    or raises. *)
Definition get_location_by_uri (uri : string) : M state ref :=
  emit (EvDbGet uri);;
  found ← gets (fun s => objects s !! uri);
  match found with
  | Some _ => mret uri
  | None => raise (ObjectNotFound "DatasetStorageLocation" uri)
  end.

End Aws.

Export Aws.

(** ** [aws/handlers/s3.py] *)

Module S3.

(** The names bound at module level: the imports, [log] and the class. *)
Definition module_globals : list string :=
  ["logging"; "ClientError"; "Config"; "db"; "models"; "Worker";
   "SessionHelper"; "log"; "S3"].

(** [def client(account_id: str, region: str, client_type: str, config)]:
    four required parameters, none with a default. *)
Definition client (E : env) (account_id region client_type : arg string)
           (config : arg Config) : M state boto_client :=
  match account_id, region, client_type, config with
  | Passed account_id, Passed region, Passed client_type, Passed config =>
      if truthy_str account_id then
        session ← remote_session E account_id None;
        mret (mkClient session client_type region None)
      else
        log INFO [T "S3 session in central account"];;
        session ← get_session E;
        mret (mkClient session "s3" region (Some config))
  | _, _, _, _ =>
      raise (TypeError (MissingArguments "client"
               (omitted "account_id" account_id ++ omitted "region" region ++
                omitted "client_type" client_type ++ omitted "config" config)))
  end.

(** [Config(signature_version='s3v4', s3={'addressing_style': 'virtual'})] *)
Definition presign_config : Config :=
  mkConfig "s3v4" [("addressing_style", "virtual")].

Definition get_presigned_url_try (E : env) (s3_client : boto_client)
           (bucket key : string) : M state value :=
  try_except
    (call E s3_client "generate_presigned_url"
          [("ClientMethod", VStr "get_object");
           ("Params", VDict [("Bucket", VStr bucket); ("Key", VStr key)]);
           ("ExpiresIn", VInt (15 * 60))])
    is_ClientError
    (fun e =>
       log ERROR [T "Failed to get presigned URL for pivot role template due to: "; Py.E e];;
       raise e).

Definition get_presigned_url (E : env) (region bucket key : string) : M state value :=
  s3_client ← client E Omitted (Passed region) Omitted (Passed presign_config);
  presigned_url ← get_presigned_url_try E s3_client bucket key;
  mret presigned_url.

Definition get_presigned_post_try (E : env) (s3_client : boto_client)
           (account_id bucket key : string) : M state value :=
  try_except
    (call E s3_client "get_bucket_acl"
          [("Bucket", VStr bucket); ("ExpectedBucketOwner", VStr account_id)];;
     response ← call E s3_client "generate_presigned_post"
          [("Bucket", VStr bucket); ("Key", VStr key); ("ExpiresIn", VInt (15 * 60))];
     lookup_name module_globals "json";;
     mret (VStr (json_dumps E response)))
    is_ClientError
    (fun e => raise e).

Definition get_presigned_post (E : env) (account_id region bucket key : string)
  : M state value :=
  s3_client ← client E Omitted (Passed region) Omitted (Passed presign_config);
  get_presigned_post_try E s3_client account_id bucket key.

Definition create_bucket_prefix_try (E : env) (location : ref) : M state value :=
  accountid ← getattr location "AWSAccountId" AWSAccountId;
  region ← getattr location "region" region;
  s3cli ← client E (Passed accountid) (Passed region) (Passed "s3") Omitted;
  bucket ← getattr location "S3BucketName" S3BucketName;
  prefix ← getattr location "S3Prefix" S3Prefix;
  response ← call E s3cli "put_object"
       [("Bucket", VStr bucket); ("Body", VStr EmptyString); ("Key", VStr (prefix +:+ "/"))];
  bucket' ← getattr location "S3BucketName" S3BucketName;
  log INFO [T "Creating S3 Prefix `"; V (VStr bucket'); T "`("; V (VStr accountid);
            T ") on AWS #"; V response];;
  set_locationCreated location true;;
  mret VNone.

Definition create_bucket_prefix_except (location : ref) (e : exn) : M state value :=
  uri ← getattr location "locationUri" locationUri;
  log ERROR [T "Dataset storage location creation failed on S3 for dataset location ";
             V (VStr uri); T " : "; Py.E e];;
  raise e.

Definition create_bucket_prefix (E : env) (location : ref) : M state value :=
  try_except (create_bucket_prefix_try E location) is_Exception
             (create_bucket_prefix_except location).

(** [@Worker.handler(path='s3.prefix.create')]; the session scope only
    serves the lookup here. *)
Definition create_dataset_location (E : env) (engine : Engine) (task : Task)
  : M state ref :=
  location ← get_location_by_uri (targetUri task);
  create_bucket_prefix E location;;
  mret location.

Definition create_bucket_policy_try (E : env) (account_id region bucket_name policy : string)
  : M state value :=
  s3cli ← client E (Passed account_id) (Passed region) (Passed "s3") Omitted;
  call E s3cli "put_bucket_policy"
       [("Bucket", VStr bucket_name); ("Policy", VStr policy);
        ("ConfirmRemoveSelfBucketAccess", VBool false);
        ("ExpectedBucketOwner", VStr account_id)];;
  log INFO [T "Created bucket policy of "; V (VStr bucket_name); T " on ";
            V (VStr account_id); T " successfully"];;
  mret VNone.

Definition create_bucket_policy_except (account_id bucket_name : string) (e : exn)
  : M state value :=
  log ERROR [T "Bucket policy created failed on bucket "; V (VStr bucket_name);
             T " of "; V (VStr account_id); T " : "; Py.E e];;
  raise e.

Definition create_bucket_policy (E : env) (account_id region bucket_name policy : string)
  : M state value :=
  try_except (create_bucket_policy_try E account_id region bucket_name policy)
             is_Exception (create_bucket_policy_except account_id bucket_name).

Definition get_bucket_policy_try (E : env) (account_id region bucket_name : string)
  : M state value :=
  s3cli ← client E (Passed account_id) (Passed region) (Passed "s3") Omitted;
  call E s3cli "get_bucket_policy"
       [("Bucket", VStr bucket_name); ("ExpectedBucketOwner", VStr account_id)].

Definition get_bucket_policy (E : env) (account_id region bucket_name : string)
  : M state value :=
  try_except_else (get_bucket_policy_try E account_id region bucket_name)
    is_Exception
    (fun e =>
       log WARNING [T "Failed to get bucket policy of "; V (VStr bucket_name);
                    T " : "; Py.E e];;
       mret VNone)
    (fun response => lift (getitem response "Policy")).

Definition get_bucket_access_point_arn_try (E : env)
           (account_id region access_point_name : string) : M state value :=
  s3control ← client E (Passed account_id) (Passed region) (Passed "s3control") Omitted;
  call E s3control "get_access_point"
       [("AccountId", VStr account_id); ("Name", VStr access_point_name)].

Definition get_bucket_access_point_arn (E : env)
           (account_id region access_point_name : string) : M state value :=
  try_except_else (get_bucket_access_point_arn_try E account_id region access_point_name)
    is_Exception
    (fun e =>
       log INFO [T "Failed to get S3 bucket access point "; V (VStr access_point_name);
                 T " on "; V (VStr account_id); T " : "; Py.E e];;
       mret VNone)
    (fun access_point => lift (getitem access_point "AccessPointArn")).

Definition create_bucket_access_point_try (E : env)
           (account_id region bucket_name access_point_name : string) : M state value :=
  s3control ← client E (Passed account_id) (Passed region) (Passed "s3control") Omitted;
  call E s3control "create_access_point"
       [("AccountId", VStr account_id); ("Name", VStr access_point_name);
        ("Bucket", VStr bucket_name)].

Definition create_bucket_access_point_except (bucket_name : string) (e : exn)
  : M state value :=
  log ERROR [T "S3 bucket access point creation failed for location ";
             V (VStr bucket_name); T " : "; Py.E e];;
  raise e.

Definition create_bucket_access_point (E : env)
           (account_id region bucket_name access_point_name : string) : M state value :=
  try_except_else
    (create_bucket_access_point_try E account_id region bucket_name access_point_name)
    is_Exception
    (create_bucket_access_point_except bucket_name)
    (fun access_point => lift (getitem access_point "AccessPointArn")).

Definition delete_bucket_access_point_try (E : env)
           (account_id region access_point_name : string) : M state value :=
  s3control ← client E (Passed account_id) (Passed region) (Passed "s3control") Omitted;
  call E s3control "delete_access_point"
       [("AccountId", VStr account_id); ("Name", VStr access_point_name)];;
  mret VNone.

Definition delete_bucket_access_point_except (account_id access_point_name : string)
           (e : exn) : M state value :=
  log ERROR [T "Failed to delete S3 bucket access point "; V (VStr access_point_name);
             T "/"; V (VStr account_id); T " : "; Py.E e];;
  raise e.

Definition delete_bucket_access_point (E : env)
           (account_id region access_point_name : string) : M state value :=
  try_except (delete_bucket_access_point_try E account_id region access_point_name)
             is_Exception
             (delete_bucket_access_point_except account_id access_point_name).

Definition get_access_point_policy_try (E : env)
           (account_id region access_point_name : string) : M state value :=
  s3control ← client E (Passed account_id) (Passed region) (Passed "s3control") Omitted;
  call E s3control "get_access_point_policy"
       [("AccountId", VStr account_id); ("Name", VStr access_point_name)].

Definition get_access_point_policy (E : env)
           (account_id region access_point_name : string) : M state value :=
  try_except_else (get_access_point_policy_try E account_id region access_point_name)
    is_Exception
    (fun e =>
       log INFO [T "Failed to get policy of access point "; V (VStr access_point_name);
                 T " on "; V (VStr account_id); T " : "; Py.E e];;
       mret VNone)
    (fun response => lift (getitem response "Policy")).

Definition attach_access_point_policy_try (E : env)
           (account_id region access_point_name policy : string) : M state value :=
  s3control ← client E (Passed account_id) (Passed region) (Passed "s3control") Omitted;
  call E s3control "put_access_point_policy"
       [("AccountId", VStr account_id); ("Name", VStr access_point_name);
        ("Policy", VStr policy)];;
  mret VNone.

Definition attach_access_point_policy_except (e : exn) : M state value :=
  log ERROR [T "S3 bucket access point policy creation failed : "; Py.E e];;
  raise e.

Definition attach_access_point_policy (E : env)
           (account_id region access_point_name policy : string) : M state value :=
  try_except (attach_access_point_policy_try E account_id region access_point_name policy)
             is_Exception attach_access_point_policy_except.

(** No state, no environment: the template is a function of its three
    arguments. *)
Definition generate_access_point_policy_template
           (principal_id access_point_arn s3_prefix : string) : value :=
  let policy :=
    VDict [
      ("Version", VStr "2012-10-17");
      ("Statement", VList [
        VDict [
          ("Sid", VStr (principal_id +:+ "0"));
          ("Effect", VStr "Allow");
          ("Principal", VDict [("AWS", VStr "*")]);
          ("Action", VStr "s3:ListBucket");
          ("Resource", VStr access_point_arn);
          ("Condition", VDict [
            ("StringLike", VDict [
              ("s3:prefix", VList [VStr (s3_prefix +:+ "/*")]);
              ("aws:userId", VList [VStr (principal_id +:+ ":*")])
            ])
          ])
        ];
        VDict [
          ("Sid", VStr (principal_id +:+ "1"));
          ("Effect", VStr "Allow");
          ("Principal", VDict [("AWS", VStr "*")]);
          ("Action", VStr "s3:GetObject");
          ("Resource", VList [VStr (access_point_arn +:+ "/object/" +:+ s3_prefix +:+ "/*")]);
          ("Condition", VDict [
            ("StringLike", VDict [
              ("aws:userId", VList [VStr (principal_id +:+ ":*")])
            ])
          ])
        ]
      ])
    ] in
  policy.

(** The five operations of the class that change something in S3, as
    calls with their arguments. *)
Inductive mutating_call : Type :=
| CreateBucketPrefix (location : ref)
| CreateBucketPolicy (account_id region bucket_name policy : string)
| CreateBucketAccessPoint (account_id region bucket_name access_point_name : string)
| DeleteBucketAccessPoint (account_id region access_point_name : string)
| AttachAccessPointPolicy (account_id region access_point_name policy : string).

(** The [try] suite of a mutating operation. *)
Definition try_suite (E : env) (c : mutating_call) : M state value :=
  match c with
  | CreateBucketPrefix location => create_bucket_prefix_try E location
  | CreateBucketPolicy a r b p => create_bucket_policy_try E a r b p
  | CreateBucketAccessPoint a r b n => create_bucket_access_point_try E a r b n
  | DeleteBucketAccessPoint a r n => delete_bucket_access_point_try E a r n
  | AttachAccessPointPolicy a r n p => attach_access_point_policy_try E a r n p
  end.

(** The operation itself. *)
Definition perform (E : env) (c : mutating_call) : M state value :=
  match c with
  | CreateBucketPrefix location => create_bucket_prefix E location
  | CreateBucketPolicy a r b p => create_bucket_policy E a r b p
  | CreateBucketAccessPoint a r b n => create_bucket_access_point E a r b n
  | DeleteBucketAccessPoint a r n => delete_bucket_access_point E a r n
  | AttachAccessPointPolicy a r n p => attach_access_point_policy E a r n p
  end.

(** A call of [create_bucket_prefix] is given a location object. *)
Definition receives_location (c : mutating_call) (s : state) : Prop :=
  match c with
  | CreateBucketPrefix location => is_Some (objects s !! location)
  | _ => True
  end.

End S3.

(** ** [aws/handlers/athena.py] *)

Module Athena.

(** [def client(account_id: str, region: str, role=None)] *)
Definition client (E : env) (account_id region : string) (role : option string)
  : M state boto_client :=
  session ← remote_session E account_id role;
  mret (mkClient session "athena" region None).

(** The parameter [workgroup] is rebound by the assignment of the [try]
    suite; when that suite raises, the name still holds the argument. *)
Definition get_workgroup_try (E : env) (AwsAccountId region workgroup : string)
           (role : option string) : M state value :=
  client ← client E AwsAccountId region role;
  call E client "get_work_group" [("WorkGroup", VStr workgroup)].

Definition get_workgroup (E : env) (AwsAccountId region workgroup : string)
           (role : option string) : M state value :=
  workgroup ← try_except
      (get_workgroup_try E AwsAccountId region workgroup role)
      is_ClientError
      (fun e =>
         log INFO [T "Workgroup "; V (VStr workgroup); T " cannot be found";
                   T "due to: "; Py.E e];;
         mret (VStr workgroup));
  mret workgroup.

End Athena.

(** ** The task dispatcher *)

Module Worker.

(** Modelled from the spec: [aws/handlers/service_handlers.py] ([Worker])
    is not among the sources.  The spec's task dispatcher registers
    handler functions under string keys and, on receiving a task, looks
    up the handler by path and invokes it with a database connection and
    the task payload: one synchronous call per task, no retry. *)
Definition handler_fn (R : Type) : Type := Engine -> Task -> M state R.

(** Modelled from the spec: the decorator [Worker.handler(path=..)]
    stores the function under its key. *)
Definition handler {R} (path : string) (fn : handler_fn R)
           (registry : gmap string (handler_fn R)) : gmap string (handler_fn R) :=
  <[path := fn]> registry.

(** Modelled from the spec: dispatch of one task by its path. *)
Definition dispatch {R} (registry : gmap string (handler_fn R))
           (engine : Engine) (task : Task) : M state R :=
  match registry !! action task with
  | Some fn => emit (EvDispatch (action task) (taskUri task));; fn engine task
  | None => raise (OtherException ("No handler defined for path " +:+ action task))
  end.

(** The registry after [s3.py] has been imported. *)
Definition handlers (E : env) : gmap string (handler_fn ref) :=
  handler "s3.prefix.create" (S3.create_dataset_location E) ∅.

End Worker.

(** ** [api/Objects/Tenant/resolvers.py] *)

Module Tenant.

(** The GraphQL request context handed to every resolver. *)
Record Context : Type := mkContext {
  username : string;
  groups : list string
}.

(** One call of [ParameterStoreManager.update_parameter]. *)
Record ssm_update : Type := mkUpdate {
  u_AwsAccountId : string;
  u_region : string;
  u_parameter_name : string;
  u_parameter_value : option string
}.

(** [SessionHelper] ([sts.py]) and [ParameterStoreManager]
    ([parameter_store.py]) are not among the sources; their answers and
    the process environment are parameters. *)
Record env : Type := mkEnv {
  environ : gmap string string;
  get_account : res string;
  update_parameter : ssm_update -> res value
}.

Record state : Type := mkState {
  stdout : list (option string);
  updates : list ssm_update
}.

(** [os.getenv(key, default)] *)
Definition getenv (E : env) (key default : string) : string :=
  match environ E !! key with
  | Some v => v
  | None => default
  end.

(** [print(x)] *)
Definition print (x : option string) : M state unit :=
  modify (fun s => mkState (stdout s ++ [x]) (updates s)).

(** An interpolated [str] argument of an f-string; [None] prints as
    its name. *)
Definition fmt (x : option string) : string :=
  match x with
  | Some s => s
  | None => "None"
  end.

Definition ParameterStoreManager_update_parameter (E : env) (u : ssm_update)
  : M state value :=
  modify (fun s => mkState (stdout s) (updates s ++ [u]));;
  lift (update_parameter E u).

(** [def update_ssm_parameter(context, source, name: str = None, value: str = None)] *)
Definition update_ssm_parameter (E : env) (context : Context) (source : value)
           (name value : option string) : M state Py.value :=
  current_account ← lift (get_account E);
  let region := getenv E "AWS_REGION" "eu-west-1" in
  print value;;
  print name;;
  response ← ParameterStoreManager_update_parameter E
    (mkUpdate current_account region
       ("/dataall/" +:+ getenv E "envname" "local" +:+ "/quicksightmonitoring/" +:+ fmt name)
       value);
  mret response.

End Tenant.

(** ** [deploy/stacks/param_store_stack.py] *)

Module ParamStore.

(** [aws_ssm.StringParameter(self, id, parameter_name=.., string_value=..,
    description=..)] *)
Record StringParameter : Type := mkParam {
  construct_id : string;
  parameter_name : string;
  string_value : string;
  description : option string
}.

(** The keyword arguments of the constructor. *)
Record args : Type := mkArgs {
  envname : string;
  resource_prefix : string;
  custom_domain : option (gmap string string);
  enable_cw_canaries : bool;
  quicksight_enabled : bool;
  shared_dashboard_sessions : string;
  enable_pivot_role_auto_create : bool;
  pivot_role_name : string
}.

(** The defaults of the signature. *)
Definition default_args : args :=
  mkArgs "dev" "dataall" None false false "anonymous" false "dataallPivotRole".

(** The CDK library and the random generator are outside the sources:
    the stack's region and account tokens, what [str] gives for a secret
    looked up by ARN (or the exception of the lookup), the token a
    parameter lookup by path would give, the stream of random draws,
    and whether the constructor of [aws_ssm.StringParameter] refuses its
    arguments, given the parameters already in the stack (it checks the
    parameter name and that the id is new in its scope). *)
Record env : Type := mkEnv {
  stack_region : string;
  stack_account : string;
  from_secret_complete_arn : string -> res string;
  value_for_string_parameter : string -> string;
  draws : nat -> nat;
  string_parameter_refused : list StringParameter -> StringParameter -> option exn
}.

Record state : Type := mkState {
  constructs : list StringParameter;
  rng : nat
}.

(** [aws_ssm.StringParameter(self, id, ...)]: the construct joins the
    stack unless the CDK refuses it.  The record keeps the arguments as
    the code gives them. *)
Definition new_StringParameter (E : env) (p : StringParameter) : M state unit :=
  existing ← gets constructs;
  match string_parameter_refused E existing p with
  | Some e => raise e
  | None => modify (fun s => mkState (constructs s ++ [p]) (rng s))
  end.

(** The id under which the CDK files a construct: the path separator of
    an id is replaced by two dashes. *)
Fixpoint sanitize_id (id : string) : string :=
  match id with
  | EmptyString => EmptyString
  | String c rest =>
      if Ascii.eqb c (Ascii.ascii_of_nat 47) then "--" +:+ sanitize_id rest
      else String c (sanitize_id rest)
  end.

Definition node_id (p : StringParameter) : string := sanitize_id (construct_id p).

(** Python truthiness of a value that is [None] or a [dict]. *)
Definition truthy_dict (d : option (gmap string string)) : bool :=
  match d with
  | Some m => negb (bool_decide (m = ∅))
  | None => false
  end.

(** [d[k]] on a dict known to be there. *)
Definition dict_getitem (d : option (gmap string string)) (k : string) : res string :=
  match d with
  | Some m => match m !! k with
              | Some v => Ret v
              | None => Raise (KeyError k)
              end
  | None => Raise (TypeError (NotSubscriptable k))
  end.

(** The class methods of [aws_ssm.StringParameter] in the CDK. *)
Definition StringParameter_attrs : list string :=
  ["from_string_parameter_name"; "from_string_parameter_attributes";
   "from_string_parameter_arn"; "from_secure_string_parameter_attributes";
   "from_list_parameter_attributes";
   "value_for_string_parameter"; "value_for_typed_string_parameter_v2";
   "value_for_secure_string_parameter"; "value_for_typed_list_parameter";
   "value_from_lookup"; "is_construct"; "is_resource"; "is_owned_resource"].

Definition allowed_chars : string :=
  "ABCDEFGHIJKLMNOPQRSTUVWXYZ" +:+ "abcdefghijklmnopqrstuvwxyz" +:+ "0123456789".

(** [random.choice(allowed_chars)] *)
Definition random_choice (E : env) (chars : string) : M state string :=
  k ← gets rng;
  modify (fun s => mkState (constructs s) (S (rng s)));;
  mret (match String.get (draws E k mod String.length chars) chars with
        | Some c => String c EmptyString
        | None => EmptyString
        end).

Fixpoint join_choices (E : env) (n : nat) : M state string :=
  match n with
  | O => mret EmptyString
  | S n' => c ← random_choice E allowed_chars;
            rest ← join_choices E n';
            mret (c +:+ rest)
  end.

(** [''.join(random.choice(allowed_chars) for i in range(32))] *)
Definition _generate_external_id (E : env) : M state string := join_choices E 32.

(** The nested [try] that computes [str(external_id_value)]. *)
Definition external_id_value (E : env) (envname : string) : M state string :=
  try_except
    (let parameter_path := "/dataall/" +:+ envname +:+ "/pivotRole/externalId" in
     class_attr "StringParameter" StringParameter_attrs "value_for_string_paramete";;
     mret (value_for_string_parameter E parameter_path))
    is_Exception
    (fun _ =>
       let secret_id := "dataall-externalId-" +:+ envname in
       try_except
         (lift (from_secret_complete_arn E
                  ("arn:aws:secretsmanager:" +:+ stack_region E +:+ ":" +:+
                   stack_account E +:+ ":secret:" +:+ secret_id)))
         is_Exception
         (fun _ => _generate_external_id E)).

(** [ParamStoreStack.__init__] *)
Definition __init__ (E : env) (a : args) : M state unit :=
  let envname := envname a in
  new_StringParameter E
    (mkParam ("ResourcePrefixParam" +:+ envname)
             ("/dataall/" +:+ envname +:+ "/resourcePrefix")
             (resource_prefix a) None);;
  (if truthy_dict (custom_domain a) then
     custom_domain ← lift (dict_getitem (custom_domain a) "hosted_zone_name");
     let frontend_alternate_domain := custom_domain in
     let userguide_alternate_domain := "userguide." +:+ custom_domain in
     new_StringParameter E
       (mkParam ("FrontendCustomDomain" +:+ envname)
                ("/dataall/" +:+ envname +:+ "/frontend/custom_domain_name")
                frontend_alternate_domain None);;
     new_StringParameter E
       (mkParam ("UserGuideCustomDomain" +:+ envname)
                ("/dataall/" +:+ envname +:+ "/userguide/custom_domain_name")
                userguide_alternate_domain None)
   else mret tt);;
  (if enable_cw_canaries a then
     new_StringParameter E
       (mkParam ("CWCanariesEnv" +:+ envname)
                ("/dataall/" +:+ envname +:+ "/canary/environment_account")
                "updateme(e.g: 1234xxxx)" None);;
     new_StringParameter E
       (mkParam ("CWCanariesRegion" +:+ envname)
                ("/dataall/" +:+ envname +:+ "/canary/environment_region")
                "updateme(e.g: eu-west-1)" None)
   else mret tt);;
  (if quicksight_enabled a then
     new_StringParameter E
       (mkParam ("QSVPCConnectionIdEnv" +:+ envname)
                ("/dataall/" +:+ envname +:+ "/quicksightmonitoring/VPCConnectionId")
                "updateme" None);;
     new_StringParameter E
       (mkParam ("QSDashboardIdEnv" +:+ envname)
                ("/dataall/" +:+ envname +:+ "/quicksightmonitoring/DashboardId")
                "updateme" None)
   else mret tt);;
  new_StringParameter E
    (mkParam ("dataallQuicksightConfiguration" +:+ envname)
             ("/dataall/" +:+ envname +:+ "/quicksight/sharedDashboardsSessions")
             (shared_dashboard_sessions a) None);;
  new_StringParameter E
    (mkParam ("dataallCreationPivotRole" +:+ envname)
             ("/dataall/" +:+ envname +:+ "/pivotRole/enablePivotRoleAutoCreate")
             (str_bool (enable_pivot_role_auto_create a)) None);;
  new_StringParameter E
    (mkParam ("dataallPivotRoleName" +:+ envname)
             ("/dataall/" +:+ envname +:+ "/pivotRole/pivotRoleName")
             (pivot_role_name a)
             (Some ("Stores dataall pivot role name for environment " +:+ envname)));;
  external_id_value ← external_id_value E envname;
  new_StringParameter E
    (mkParam ("dataallExternalId" +:+ envname)
             ("/dataall/" +:+ envname +:+ "/pivotRole/externalId")
             external_id_value
             (Some ("Stores dataall external id for environment " +:+ envname))).






End ParamStore.

(** ** [modules/omics/cdk/omics_stack.py] *)

Module Omics.

(** [dataall.db.models.Environment], as far as the stack reads it. *)
Module Env.
Record Environment : Type := mkEnvironment {
  name : string;
  environmentUri : string;
  resourcePrefix : string
}.
End Env.

(** [dataall.modules.omics.db.models.OmicsPipeline] *)
Record OmicsPipeline : Type := mkPipeline {
  label : string;
  description : string;
  name : string;
  OmicsPipelineUri : string;
  environmentUri : string;
  SamlAdminGroupName : string;
  SamlGroupName : string;
  S3InputBucket : string;
  S3InputPrefix : string;
  S3OutputBucket : string;
  S3OutputPrefix : string
}.

Record EnvironmentGroup : Type := mkEnvGroup { groupUri : string }.

Record Engine : Type := mkEngine { engine_envname : string }.

(** [iam.PolicyStatement(actions=.., resources=.., conditions=..)] *)
Record PolicyStatement : Type := mkStatement {
  actions : list string;
  resources : list string;
  conditions : option value
}.

(** The CDK constructs the stack creates, with the arguments it gives. *)
Inductive construct : Type :=
| CStack (id description : string)
| CAsset (id path : string)
| CRepository (id repository_name code_path description : string)
| CRole (id role_name : string) (assumed_by : list string)
| CRolePolicy (role_id : string) (statement : PolicyStatement)
| CCodePipeline (id pipeline_name repository branch : string)
                (environment_variables : list (string * string))
                (commands : list string)
                (role_policy_statements : list PolicyStatement)
| CTags (target_type : string)
| CNagChecks.

(** Reads of the database, in program order. *)
Inductive db_read : Type :=
| QueryPipeline (uri : string)
| QueryEnvironment (uri : string)
| QueryEnvironmentGroup (group uri : string).

(** An operation on a file that the operating system may refuse (a
    missing directory, a missing permission). *)
Inductive fs_operation : Type :=
| OpenForWriting (path : string)
| Move (source destination : string).

(** What [shutil.make_archive("code", "zip", path)] did: it returned,
    with the archive written as [code.zip] in the working directory, or
    it raised, possibly with an unfinished [code.zip] left there. *)
Inductive archive_outcome : Type :=
| Archived (archive : string)
| ArchiveFailed (e : exn) (left_behind : option string).

(** What the module takes from outside the sources: the process
    environment, the rows of the database, [dataall.db.get_engine],
    [Environment.get_environment_by_uri] and
    [Environment.get_environment_group] of [dataall.db.api], the path of
    the module file (the components of its absolute path), the stack's
    account and region tokens, the zip encoder of [shutil],
    [textwrap.dedent], what [os.path.realpath] makes of a normalised
    path (it follows symbolic links) and whether the operating system
    refuses an operation on a file. *)
Record env : Type := mkEnv {
  environ : gmap string string;
  pipelines : gmap string OmicsPipeline;
  db_get_engine : string -> res Engine;
  get_environment_by_uri : string -> res Env.Environment;
  get_environment_group : string -> string -> res EnvironmentGroup;
  module_file : list string;
  stack_account : string;
  stack_region : string;
  zip_archive : string -> gmap string string -> archive_outcome;
  dedent : string -> string;
  realpath : string -> string;
  os_refuses : fs_operation -> option exn
}.

Record state : Type := mkState {
  files : gmap string string;
  logs : list log_record;
  stdout : list string;
  constructs : list construct;
  reads : list db_read
}.

Definition set_files (f : gmap string string) (s : state) : state :=
  mkState f (logs s) (stdout s) (constructs s) (reads s).

Definition log (l : level) (m : list piece) : M state unit :=
  modify (fun s => mkState (files s) (logs s ++ [LogRecord l m]) (stdout s)
                           (constructs s) (reads s)).

Definition print (x : string) : M state unit :=
  modify (fun s => mkState (files s) (logs s) (stdout s ++ [x])
                           (constructs s) (reads s)).

Definition new_construct (c : construct) : M state unit :=
  modify (fun s => mkState (files s) (logs s) (stdout s)
                           (constructs s ++ [c]) (reads s)).

Definition db_read_event (r : db_read) : M state unit :=
  modify (fun s => mkState (files s) (logs s) (stdout s)
                           (constructs s) (reads s ++ [r])).

(** The names bound at module level of [omics_stack.py]. *)
Definition module_globals : list string :=
  ["logging"; "os"; "shutil"; "sagemaker"; "ec2"; "kms"; "iam"; "codecommit";
   "codebuild"; "pipelines"; "Stack"; "CfnOutput"; "Asset"; "OmicsPipeline";
   "models"; "EnvironmentGroup"; "stack"; "Engine"; "get_engine"; "Environment";
   "CDKNagUtil"; "TagsUtil"; "logger"; "OmicsPipelineStack"; "zip_directory";
   "cleanup_zip_directory"; "write_cdk_app_file"].

(** The attributes defined in the body of [class OmicsPipelineStack]. *)
Definition class_attrs : list string :=
  ["module_name"; "get_engine"; "get_target"; "get_pipeline_environment";
   "get_env_group"; "__init__"].

(** [os.environ.get(key, default)] *)
Definition environ_get (E : env) (key default : string) : string :=
  match environ E !! key with
  | Some v => v
  | None => default
  end.

(** [obj.attr] on a value that may be [None]. *)
Definition attr {A B} (obj : option A) (name : string) (field : A -> B)
  : M state B :=
  match obj with
  | Some o => mret (field o)
  | None => raise (AttributeError "NoneType" name)
  end.

Definition dq : string := String (Ascii.ascii_of_nat 34) EmptyString.
Definition nl : string := String (Ascii.ascii_of_nat 10) EmptyString.

(** [os.path.abspath] on the components of an absolute path: [..]
    drops the component before it (at the root, nothing), [.] and empty
    components are dropped. *)
Fixpoint normpath (stack : list string) (parts : list string) : list string :=
  match parts with
  | [] => rev stack
  | part :: rest =>
      if String.eqb part ".." then normpath (tail stack) rest
      else if String.eqb part "." || String.eqb part EmptyString then normpath stack rest
      else normpath (part :: stack) rest
  end.

Fixpoint join_components (parts : list string) : string :=
  match parts with
  | [] => EmptyString
  | part :: rest => "/" +:+ part +:+ join_components rest
  end.

(** The absolute path with these components; the root has none. *)
Definition join_path (parts : list string) : string :=
  match parts with
  | [] => "/"
  | _ => join_components parts
  end.

(** An operation on a file that the operating system may refuse. *)
Definition os_attempt (E : env) (op : fs_operation) : M state unit :=
  match os_refuses E op with
  | Some e => raise e
  | None => mret tt
  end.

(** [os.path.realpath(os.path.abspath(os.path.join(__file__, '..', '..',
    '..', '..', 'blueprints', 'omics_pipeline')))] *)
Definition code_dir_path (E : env) : string :=
  realpath E
    (join_path (normpath [] (module_file E ++
                  [".."; ".."; ".."; ".."; "blueprints"; "omics_pipeline"]))).

(** [def get_engine(self) -> Engine]: [self] is its only parameter. *)
Definition get_engine (E : env) (kwargs : list (string * string)) : M state Engine :=
  match kwargs with
  | (kw, _) :: _ => raise (TypeError (UnexpectedKeyword "get_engine" kw))
  | [] =>
      let envname := environ_get E "envname" "local" in
      engine ← lift (db_get_engine E envname);
      mret engine
  end.

Definition get_target (E : env) (target_uri : string) : M state (option OmicsPipeline) :=
  engine ← get_engine E [];
  db_read_event (QueryPipeline target_uri);;
  let pipeline := pipelines E !! target_uri in
  mret pipeline.

Definition get_pipeline_environment (E : env) (pipeline : option OmicsPipeline)
  : M state Env.Environment :=
  let envname := environ_get E "envname" "local" in
  engine ← get_engine E [("envname", envname)];
  uri ← attr pipeline "environmentUri" environmentUri;
  db_read_event (QueryEnvironment uri);;
  lift (get_environment_by_uri E uri).

Definition get_env_group (E : env) (pipeline : option OmicsPipeline)
  : M state EnvironmentGroup :=
  engine ← get_engine E [];
  group ← attr pipeline "SamlAdminGroupName" SamlAdminGroupName;
  uri ← attr pipeline "environmentUri" environmentUri;
  db_read_event (QueryEnvironmentGroup group uri);;
  env ← lift (get_environment_group E group uri);
  mret env.

(** Module-level [zip_directory(path)]: [shutil.make_archive] leaves
    [code.zip] in the working directory, [shutil.move] takes it to the
    directory. *)
Definition zip_directory (E : env) (path : string) : M state unit :=
  try_except
    (fs ← gets files;
     match zip_archive E path fs with
     | Archived archive =>
         modify (fun s => set_files (<["code.zip" := archive]> (files s)) s);;
         os_attempt E (Move "code.zip" (path +:+ "/code.zip"));;
         modify (fun s => set_files (<[path +:+ "/code.zip" := archive]>
                                       (delete "code.zip" (files s))) s)
     | ArchiveFailed e left_behind =>
         match left_behind with
         | Some unfinished =>
             modify (fun s => set_files (<["code.zip" := unfinished]> (files s)) s)
         | None => mret tt
         end;;
         raise e
     end)
    is_Exception
    (fun e => log ERROR [T "Failed to zip repository due to: "; Py.E e]).

(** Module-level [cleanup_zip_directory(path)] *)
Definition cleanup_zip_directory (path : string) : M state unit :=
  fs ← gets files;
  if bool_decide (is_Some (fs !! (path +:+ "/code.zip"))) then
    modify (fun s => set_files (delete (path +:+ "/code.zip") (files s)) s)
  else
    log INFO [T "Info: "; V (VStr (path +:+ "/code.zip")); T " Zip not found"].

(** The text of the f-string [app], line by line. *)
Definition app_lines (pipeline : OmicsPipeline) (environment : Env.Environment)
  : list string :=
  [
     "    #!/usr/bin/env python3";
     "    import os";
     "    import uuid";
     EmptyString;
     "    import aws_cdk as cdk";
     "    import boto3";
     "    from cdk_nag import AwsSolutionsChecks, NagSuppressions, NagPackSuppression";
     EmptyString;
     "    from omics_pipeline.stacks.cdk_nag_exclusions import PIPELINE_STACK_CDK_NAG_EXCLUSIONS";
     "    from omics_pipeline.omics_pipeline_stack import OmicsPipelineStack";
     EmptyString;
     EmptyString;
     "    pipeline_data = dict(";
     "        pipeline_name=" +:+ dq +:+ name pipeline +:+ dq +:+ ",";
     "        pipeline_uri=" +:+ dq +:+ OmicsPipelineUri pipeline +:+ dq +:+ ",";
     "        environment_name=" +:+ dq +:+ Env.name environment +:+ dq +:+ ",";
     "        environment_uri=" +:+ dq +:+ Env.environmentUri environment +:+ dq +:+ ",";
     "        environment_resourcePrefix=" +:+ dq +:+ Env.resourcePrefix environment +:+ dq +:+ ",";
     "        input_bucket=" +:+ dq +:+ S3InputBucket pipeline +:+ dq +:+ ",";
     "        input_prefix=" +:+ dq +:+ S3InputPrefix pipeline +:+ dq +:+ ",";
     "        output_bucket=" +:+ dq +:+ S3OutputBucket pipeline +:+ dq +:+ ",";
     "        output_prefix=" +:+ dq +:+ S3OutputPrefix pipeline +:+ dq +:+ ",";
     "    )";
     "    print(" +:+ dq +:+ "Omics Pipeline Data" +:+ dq +:+ ", pipeline_data)";
     "    resource_prefix = " +:+ dq +:+ Env.resourcePrefix environment +:+ "-omics-" +:+ OmicsPipelineUri pipeline +:+ dq +:+ "[:63]";
     "    env_resource_prefix = " +:+ dq +:+ Env.resourcePrefix environment +:+ dq +:+ "   ";
     "    app = cdk.App()";
     EmptyString;
     "    account_id = boto3.client(" +:+ dq +:+ "sts" +:+ dq +:+ ").get_caller_identity().get(" +:+ dq +:+ "Account" +:+ dq +:+ ") or os.getenv(";
     "        " +:+ dq +:+ "CDK_DEFAULT_ACCOUNT" +:+ dq;
     "    )";
     "    cdk_pipeline_region = app.node.try_get_context(" +:+ dq +:+ "tooling_region" +:+ dq +:+ ") or os.getenv(";
     "        " +:+ dq +:+ "CDK_DEFAULT_REGION" +:+ dq;
     "    )";
     "    git_branch = " +:+ dq +:+ "main" +:+ dq;
     "    env = cdk.Environment(account=account_id, region=cdk_pipeline_region)";
     EmptyString;
     "    pipeline = OmicsPipelineStack(";
     "        app,";
     "        resource_prefix,";
     "        env=env,";
     "        git_branch=git_branch,";
     "        resource_prefix=resource_prefix,";
     "        commit_id=os.getenv(" +:+ dq +:+ "COMMIT_ID" +:+ dq +:+ ", str(uuid.uuid4())[:8]),";
     "        repository_name=resource_prefix,";
     "        env_resource_prefix=env_resource_prefix,";
     "        input_bucket=" +:+ dq +:+ S3InputBucket pipeline +:+ dq +:+ ",";
     "        input_prefix=" +:+ dq +:+ S3InputPrefix pipeline +:+ dq +:+ ",";
     "        output_bucket=" +:+ dq +:+ S3OutputBucket pipeline +:+ dq +:+ ",";
     "        output_prefix=" +:+ dq +:+ S3OutputPrefix pipeline +:+ dq +:+ ",";
     "        tags=dict(";
     "            OmicsPipelineUri=" +:+ dq +:+ OmicsPipelineUri pipeline +:+ dq +:+ ",";
     "            OmicsPipelineLabel=" +:+ dq +:+ OmicsPipelineUri pipeline +:+ dq +:+ ",";
     "            OmicsPipelineName=" +:+ dq +:+ name pipeline +:+ dq +:+ ",";
     "            Team=" +:+ dq +:+ SamlGroupName pipeline +:+ dq +:+ ",";
     "        )";
     "    )";
     "    cdk.Aspects.of(app).add(AwsSolutionsChecks(reports=True, verbose=False))";
     "    NagSuppressions.add_stack_suppressions(";
     "        pipeline,";
     "        suppressions=[";
     "            NagPackSuppression(id=rule_suppressed[" +:+ dq +:+ "id" +:+ dq +:+ "], reason=rule_suppressed[" +:+ dq +:+ "reason" +:+ dq +:+ "])";
     "            for rule_suppressed in PIPELINE_STACK_CDK_NAG_EXCLUSIONS";
     "        ],";
     "        apply_to_nested_stacks=True,";
     "    )";
     "    app.synth()";
     EmptyString
  ].

Definition render_app (pipeline : OmicsPipeline) (environment : Env.Environment)
  : string :=
  nl +:+ fold_right (fun line rest => line +:+ nl +:+ rest) "    "
                    (app_lines pipeline environment).

(** Module-level [write_cdk_app_file(code_dir_path, pipeline, environment)]:
    the file is opened for writing, which empties it unless the
    operating system refuses, before the argument of [write] is
    evaluated. *)
Definition write_cdk_app_file (E : env) (code_dir_path : string)
           (pipeline : option OmicsPipeline) (environment : option Env.Environment)
  : M state unit :=
  p ← attr pipeline "name" id;
  e ← attr environment "name" id;
  let app := render_app p e in
  os_attempt E (OpenForWriting (code_dir_path +:+ "/app.py"));;
  modify (fun s => set_files (<[code_dir_path +:+ "/app.py" := EmptyString]> (files s)) s);;
  lookup_name module_globals "textwrap";;
  modify (fun s => set_files (<[code_dir_path +:+ "/app.py" := dedent E app]> (files s)) s);;
  print app.

Definition codebuild_policy (E : env) (resource_prefix : string) : list PolicyStatement :=
  [ mkStatement ["sts:GetServiceBearerToken"] ["*"]
      (Some (VDict [("StringEquals",
                     VDict [("sts:AWSServiceName", VStr "codeartifact.amazonaws.com")])]));
    mkStatement ["ecr:GetAuthorizationToken"] ["*"] None;
    mkStatement
      ["codeartifact:GetAuthorizationToken";
       "codeartifact:GetRepositoryEndpoint";
       "codeartifact:ReadFromRepository";
       "ecr:GetDownloadUrlForLayer";
       "ecr:BatchGetImage";
       "ecr:BatchCheckLayerAvailability";
       "ecr:PutImage";
       "ecr:InitiateLayerUpload";
       "ecr:UploadLayerPart";
       "ecr:CompleteLayerUpload";
       "ecr:GetDownloadUrlForLayer";
       "kms:Decrypt";
       "kms:Encrypt";
       "kms:GenerateDataKey";
       "secretsmanager:GetSecretValue";
       "secretsmanager:DescribeSecret";
       "ssm:GetParametersByPath";
       "ssm:GetParameters";
       "ssm:GetParameter";
       "s3:Get*";
       "s3:Put*";
       "s3:List*";
       "codebuild:CreateReportGroup";
       "codebuild:CreateReport";
       "codebuild:UpdateReport";
       "codebuild:BatchPutTestCases";
       "codebuild:BatchPutCodeCoverages"]
      ["arn:aws:s3:::" +:+ resource_prefix +:+ "*";
       "arn:aws:s3:::" +:+ resource_prefix +:+ "*/*";
       "arn:aws:codebuild:" +:+ stack_region E +:+ ":" +:+ stack_account E +:+
         ":project/*" +:+ resource_prefix +:+ "*";
       "arn:aws:secretsmanager:" +:+ stack_region E +:+ ":" +:+ stack_account E +:+
         ":secret:*" +:+ resource_prefix +:+ "*";
       "arn:aws:kms:" +:+ stack_region E +:+ ":" +:+ stack_account E +:+ ":key/*";
       "arn:aws:ssm:*:" +:+ stack_account E +:+ ":parameter/*" +:+ resource_prefix +:+ "*";
       "arn:aws:ecr:" +:+ stack_region E +:+ ":" +:+ stack_account E +:+
         ":repository/" +:+ resource_prefix +:+ "*";
       "arn:aws:codeartifact:" +:+ stack_region E +:+ ":" +:+ stack_account E +:+
         ":repository/" +:+ resource_prefix +:+ "*";
       "arn:aws:codeartifact:" +:+ stack_region E +:+ ":" +:+ stack_account E +:+
         ":domain/" +:+ resource_prefix +:+ "*"]
      None ].

Fixpoint add_to_policy (role_id : string) (statements : list PolicyStatement)
  : M state unit :=
  match statements with
  | [] => mret tt
  | policy :: rest => new_construct (CRolePolicy role_id policy);;
                      add_to_policy role_id rest
  end.

(** [OmicsPipelineStack.__init__(self, scope, id, target_uri, **kwargs)] *)
Definition __init__ (E : env) (id : string) (target_uri : string) : M state unit :=
  t1 ← get_target E target_uri;
  label ← attr t1 "label" label;
  t2 ← get_target E target_uri;
  description ← attr t2 "description" description;
  new_construct
    (CStack id (take_str 1024
       ("Cloud formation stack of OMICS PIPELINE: " +:+ label +:+ "; URI: " +:+
        target_uri +:+ "; DESCRIPTION: " +:+ description)));;
  pipeline ← get_target E target_uri;
  pipeline_environment ← get_pipeline_environment E pipeline;
  env_group ← get_env_group E pipeline;
  uri ← attr pipeline "OmicsPipelineUri" OmicsPipelineUri;
  let resource_prefix :=
    take_str 63 (Env.resourcePrefix pipeline_environment +:+ "-omics-" +:+ uri) in
  let code_dir_path := code_dir_path E in
  class_attr "OmicsPipelineStack" class_attrs "write_cdk_app_file";;
  write_cdk_app_file E code_dir_path pipeline (Some pipeline_environment);;
  class_attr "OmicsPipelineStack" class_attrs "cleanup_zip_directory";;
  cleanup_zip_directory code_dir_path;;
  class_attr "OmicsPipelineStack" class_attrs "zip_directory";;
  zip_directory E code_dir_path;;
  pname ← attr pipeline "name" name;
  new_construct (CAsset (pname +:+ "-asset") (code_dir_path +:+ "/code.zip"));;
  new_construct
    (CRepository "Repository" resource_prefix (code_dir_path +:+ "/code.zip")
       ("Code repository for pipeline " +:+ resource_prefix +:+ ". Generated by data.all."));;
  new_construct
    (CRole (resource_prefix +:+ "-pipeline-role") (resource_prefix +:+ "-pipeline-role")
           ["codebuild.amazonaws.com"; "codepipeline.amazonaws.com"; stack_account E]);;
  add_to_policy (resource_prefix +:+ "-pipeline-role") (codebuild_policy E resource_prefix);;
  new_construct
    (CCodePipeline (resource_prefix +:+ "-pipeline") resource_prefix "Repository" "main"
       [("PIPELINE_URI", uri);
        ("ENV_RESOURCE_PREFIX", Env.resourcePrefix pipeline_environment)]
       ["n 16"; "npm install -g aws-cdk"; "pip install -r requirements.txt"; "cdk synth"]
       (codebuild_policy E resource_prefix));;
  new_construct (CTags "omics_pipeline");;
  new_construct CNagChecks.

End Omics.

(** ** Concrete worlds used by the examples *)

Module Fixtures.

(** AWS answers every request. *)
Definition aws_ok : Aws.env :=
  Aws.mkEnv (fun _ _ => None) None
    (fun _ _ _ => Ret (VDict [("Policy", VStr "{}");
                              ("AccessPointArn", VStr "arn:aws:s3:eu-west-1:111122223333:accesspoint/ap");
                              ("ETag", VStr "etag")]))
    (fun _ => "{}").

(** AWS refuses every request with a [ClientError]. *)
Definition aws_client_error : Aws.env :=
  Aws.mkEnv (fun _ _ => None) None
    (fun _ operation _ => Raise (ClientError operation "InvalidRequestException"))
    (fun _ => "{}").

(** The endpoint cannot be reached: botocore raises an exception that is
    not a [ClientError]. *)
Definition aws_unreachable : Aws.env :=
  Aws.mkEnv (fun _ _ => None) None
    (fun _ _ _ => Raise (OtherException "EndpointConnectionError"))
    (fun _ => "{}").

Definition raw_location : DatasetStorageLocation :=
  mkLocation "loc-1" "111122223333" "eu-west-1" "dataset-bucket" "raw" false.

(** One persisted location, nothing logged, nothing sent. *)
Definition one_location : Aws.state :=
  Aws.mkState [] [] {[ "loc-1" := raw_location ]}.

Definition prefix_task : Task := mkTask "task-1" "loc-1" "s3.prefix.create".

Definition local_engine : Aws.Engine := Aws.mkEngine "local".

Definition missing_config : exn := TypeError (MissingArguments "client" ["config"]).

(** The resolver's world: an account, no [envname] or region in the
    process environment, a parameter store that answers. *)
Definition tenant_world : Tenant.env :=
  Tenant.mkEnv ∅ (Ret "111122223333") (fun u => Ret (VStr "updated")).

Definition admin_context : Tenant.Context := Tenant.mkContext "alice" ["admins"].

Definition quiet : Tenant.state := Tenant.mkState [] [].

(** A character that [aws_ssm.StringParameter] does not take in a
    parameter name: here, the space. *)
Fixpoint has_space (s : string) : bool :=
  match s with
  | EmptyString => false
  | String c rest => Ascii.eqb c (Ascii.ascii_of_nat 32) || has_space rest
  end.

(** The CDK side of the parameter stack: the secret lookup gives an
    object, and a parameter name with a space in it is refused. *)
Definition cdk_world : ParamStore.env :=
  ParamStore.mkEnv "eu-west-1" "111122223333" (fun arn => Ret ("<Secret " +:+ arn +:+ ">"))
                   (fun path => "${Token[" +:+ path +:+ "]}") (fun n => n * 7)
                   (fun _ p =>
                      if has_space (ParamStore.parameter_name p) then
                        Some (OtherException "name must only contain letters, numbers, and the following 4 symbols .-_/")
                      else None).

(** A production deployment with a custom domain and canaries, without
    QuickSight monitoring. *)
Definition prod_args : ParamStore.args :=
  ParamStore.mkArgs "prod" "dataall" (Some {[ "hosted_zone_name" := "example.com" ]})
                    true false "anonymous" true "dataallPivotRole".

Definition no_constructs : ParamStore.state := ParamStore.mkState [] 0.

(** One Omics pipeline and its environment in the database. *)
Definition genome_pipeline : Omics.OmicsPipeline :=
  Omics.mkPipeline "Genome" "Variant calling" "genome" "pipe-1" "env-1" "admins" "team"
                   "in-bucket" "in" "out-bucket" "out".

Definition genome_environment : Omics.Env.Environment :=
  Omics.Env.mkEnvironment "research" "env-1" "dataall".

Definition omics_world : Omics.env :=
  Omics.mkEnv ∅ {[ "pipe-1" := genome_pipeline ]}
    (fun envname => Ret (Omics.mkEngine envname))
    (fun _ => Ret genome_environment)
    (fun _ _ => Ret (Omics.mkEnvGroup "group-1"))
    ["app"; "dataall"; "modules"; "omics"; "cdk"; "omics_stack.py"]
    "111122223333" "eu-west-1"
    (fun _ _ => Omics.Archived "zip")
    (fun text => text)
    (fun path => path)
    (fun _ => None).

Definition empty_disk : Omics.state := Omics.mkState ∅ [] [] [] [].

End Fixtures.

(** ** The permission resolvers of [api/Objects/Tenant/resolvers.py] *)

Module TenantPermissions.

(** Python truthiness of a value: what [if not filter] tests. *)
Definition truthy (v : value) : bool :=
  match v with
  | VNone => false
  | VBool b => b
  | VInt n => negb (Z.eqb n 0)
  | VStr s => truthy_str s
  | VList l => match l with [] => false | _ => true end
  | VDict d => match d with [] => false | _ => true end
  end.

(** The calls of [db.api.TenantPolicy] the resolvers make, with the
    keyword arguments they give. *)
Inductive policy_call : Type :=
| UpdateGroupPermissions (username : string) (groups : list string)
                         (uri : value) (data : value) (check_perm : bool)
| ListTenantPermissions (username : string) (groups : list string)
| ListTenantGroups (username : string) (groups : list string)
                   (uri : value) (data : value) (check_perm : bool).

(** [db.api.TenantPolicy] is not among the sources: its answers are a
    parameter.  The session scope of the engine only brackets the call
    and is left out. *)
Record env : Type := mkEnv {
  tenant_policy : policy_call -> res value
}.

(** The calls made so far, in order. *)
Definition state : Type := list policy_call.

Definition TenantPolicy (E : env) (c : policy_call) : M state value :=
  modify (fun s : state => (s ++ [c])%list);;
  lift (tenant_policy E c).

(** [def update_group_permissions(context, source, input=None)] *)
Definition update_group_permissions (E : env) (context : Tenant.Context)
           (source : value) (input : value) : M state value :=
  uri ← lift (getitem input "groupUri");
  TenantPolicy E
    (UpdateGroupPermissions (Tenant.username context) (Tenant.groups context)
                            uri input true).

(** [def list_tenant_permissions(context, source)] *)
Definition list_tenant_permissions (E : env) (context : Tenant.Context)
           (source : value) : M state value :=
  TenantPolicy E
    (ListTenantPermissions (Tenant.username context) (Tenant.groups context)).

(** [def list_tenant_groups(context, source, filter=None)] *)
Definition list_tenant_groups (E : env) (context : Tenant.Context)
           (source : value) (filter : value) : M state value :=
  let filter := if negb (truthy filter) then VDict [] else filter in
  TenantPolicy E
    (ListTenantGroups (Tenant.username context) (Tenant.groups context)
                      VNone filter true).

End TenantPermissions.

(** ** More concrete worlds *)

Module MoreFixtures.

(** A tenant-policy API that answers every call. *)
Definition policy_world : TenantPermissions.env :=
  TenantPermissions.mkEnv (fun _ => Ret (VBool true)).

(** The resolver's world when the account cannot be determined. *)
Definition no_account_world : Tenant.env :=
  Tenant.mkEnv ∅ (Raise (ClientError "GetCallerIdentity" "ExpiredToken"))
               (fun u => Ret (VStr "updated")).

(** A deployment named [prod] in the process environment. *)
Definition prod_tenant_world : Tenant.env :=
  Tenant.mkEnv {[ "envname" := "prod" ]} (Ret "111122223333")
               (fun u => Ret (VStr "updated")).

(** A production deployment with QuickSight monitoring. *)
Definition monitored_args : ParamStore.args :=
  ParamStore.mkArgs "prod" "dataall" None false true "anonymous" false "dataallPivotRole".

(** A custom domain that does not name its hosted zone. *)
Definition zoneless_args : ParamStore.args :=
  ParamStore.mkArgs "prod" "dataall" (Some {[ "hosted_zone_id" := "Z123" ]})
                    true true "anonymous" true "dataallPivotRole".


(** A world whose database has no pipeline. *)
Definition empty_database : Omics.env :=
  Omics.mkEnv ∅ ∅
    (fun envname => Ret (Omics.mkEngine envname))
    (fun _ => Ret Fixtures.genome_environment)
    (fun _ _ => Ret (Omics.mkEnvGroup "group-1"))
    ["app"; "dataall"; "modules"; "omics"; "cdk"; "omics_stack.py"]
    "111122223333" "eu-west-1"
    (fun _ _ => Omics.Archived "zip")
    (fun text => text)
    (fun path => path)
    (fun _ => None).

(** A deployment name with a space, which no parameter name may hold,
    and a custom domain that does not name its hosted zone. *)
Definition spaced_args : ParamStore.args :=
  ParamStore.mkArgs "my env" "dataall" (Some {[ "hosted_zone_id" := "Z123" ]})
                    false false "anonymous" false "dataallPivotRole".

(** A world whose blueprint directory does not exist: nothing can be
    opened there or moved there. *)
Definition no_blueprint_world : Omics.env :=
  Omics.mkEnv ∅ {[ "pipe-1" := Fixtures.genome_pipeline ]}
    (fun envname => Ret (Omics.mkEngine envname))
    (fun _ => Ret Fixtures.genome_environment)
    (fun _ _ => Ret (Omics.mkEnvGroup "group-1"))
    ["app"; "dataall"; "modules"; "omics"; "cdk"; "omics_stack.py"]
    "111122223333" "eu-west-1"
    (fun _ _ => Omics.Archived "zip")
    (fun text => text)
    (fun path => path)
    (fun op => Some (OSError "No such file or directory")).

End MoreFixtures.

(** ** Properties of the handlers *)

Section HandlerFacts.

Import Fixtures.

Variable E : Aws.env.

(** Every call of [S3.client] that leaves out [config] fails while
    binding its arguments: nothing is logged and nothing is sent. *)
Lemma client_without_config (account_id region client_type : string) (s : Aws.state) :
  S3.client E (Passed account_id) (Passed region) (Passed client_type) Omitted s
  = (Raise missing_config, s).
Proof. reflexivity. Qed.

Lemma try_except_caught {St A} (body : M St A) catches handler (s s' : St) (e : exn) :
  body s = (Raise e, s') -> catches e = true ->
  try_except body catches handler s = handler e s'.
Proof. intros Hb Hc. unfold try_except. now rewrite Hb, Hc. Qed.

Lemma try_except_else_caught {St A B} (body : M St A) catches
      (handler : exn -> M St B) (els : A -> M St B) (s s' : St) (e : exn) :
  body s = (Raise e, s') -> catches e = true ->
  try_except_else body catches handler els s = handler e s'.
Proof. intros Hb Hc. unfold try_except_else. now rewrite Hb, Hc. Qed.

Lemma try_except_else_returned {St A B} (body : M St A) catches
      (handler : exn -> M St B) (els : A -> M St B) (s s' : St) (a : A) :
  body s = (Ret a, s') ->
  try_except_else body catches handler els s = els a s'.
Proof. intros Hb. unfold try_except_else. now rewrite Hb. Qed.

(** Running a sequence: how the first statement ended decides. *)
Lemma bind_returned {St A B} (m : M St A) (k : A -> M St B) (s s' : St) (a : A) :
  m s = (Ret a, s') -> (m ≫= k) s = k a s'.
Proof. intros H. unfold mbind, M_bind, bind. now rewrite H. Qed.

Lemma bind_raised {St A B} (m : M St A) (k : A -> M St B) (s s' : St) (e : exn) :
  m s = (Raise e, s') -> (m ≫= k) s = (Raise e, s').
Proof. intros H. unfold mbind, M_bind, bind. now rewrite H. Qed.

Lemma getattr_bound {A} (location : ref) (name : string)
      (field : DatasetStorageLocation -> A) (o : DatasetStorageLocation) (s : Aws.state) :
  objects s !! location = Some o ->
  getattr location name field s = (Ret (field o), s).
Proof.
  intros Ho. unfold getattr.
  rewrite (bind_returned _ _ s s (Some o)); [reflexivity |].
  unfold gets. now rewrite Ho.
Qed.

Lemma getattr_unbound {A} (location : ref) (name : string)
      (field : DatasetStorageLocation -> A) (s : Aws.state) :
  objects s !! location = None ->
  getattr location name field s = (Raise (AttributeError "NoneType" name), s).
Proof.
  intros Ho. unfold getattr.
  rewrite (bind_returned _ _ s s None); [reflexivity |].
  unfold gets. now rewrite Ho.
Qed.

(** The [try] suite of [create_bucket_prefix] on a location object. *)
Lemma create_bucket_prefix_try_bound (location : ref) (s : Aws.state) :
  is_Some (objects s !! location) ->
  S3.create_bucket_prefix_try E location s = (Raise missing_config, s).
Proof.
  intros [o Ho]. unfold S3.create_bucket_prefix_try.
  rewrite (bind_returned _ _ s s _ (getattr_bound _ _ _ o s Ho)).
  rewrite (bind_returned _ _ s s _ (getattr_bound _ _ _ o s Ho)).
  now rewrite (bind_raised _ _ s s _ (client_without_config _ _ _ s)).
Qed.

(** The suite of a mutating operation never gets past [S3.client]. *)
Lemma try_suite_stops_at_client (c : S3.mutating_call) (s : Aws.state) :
  S3.receives_location c s ->
  S3.try_suite E c s = (Raise missing_config, s).
Proof.
  destruct c; cbn [S3.receives_location S3.try_suite]; intros H;
    [now apply create_bucket_prefix_try_bound | reflexivity ..].
Qed.

(** What the three S3 lookups do whenever their suite raises. *)
Lemma get_bucket_policy_on_failure (a r b : string) (s s' : Aws.state) (e : exn) :
  S3.get_bucket_policy_try E a r b s = (Raise e, s') ->
  S3.get_bucket_policy E a r b s
  = (Ret VNone,
     add_log (LogRecord WARNING
                [T "Failed to get bucket policy of "; V (VStr b); T " : "; Py.E e]) s').
Proof.
  intros H. unfold S3.get_bucket_policy.
  now rewrite (try_except_else_caught _ _ _ _ s s' e H eq_refl).
Qed.

Lemma get_bucket_access_point_arn_on_failure (a r n : string) (s s' : Aws.state) (e : exn) :
  S3.get_bucket_access_point_arn_try E a r n s = (Raise e, s') ->
  S3.get_bucket_access_point_arn E a r n s
  = (Ret VNone,
     add_log (LogRecord INFO
                [T "Failed to get S3 bucket access point "; V (VStr n); T " on ";
                 V (VStr a); T " : "; Py.E e]) s').
Proof.
  intros H. unfold S3.get_bucket_access_point_arn.
  now rewrite (try_except_else_caught _ _ _ _ s s' e H eq_refl).
Qed.

Lemma get_access_point_policy_on_failure (a r n : string) (s s' : Aws.state) (e : exn) :
  S3.get_access_point_policy_try E a r n s = (Raise e, s') ->
  S3.get_access_point_policy E a r n s
  = (Ret VNone,
     add_log (LogRecord INFO
                [T "Failed to get policy of access point "; V (VStr n); T " on ";
                 V (VStr a); T " : "; Py.E e]) s').
Proof.
  intros H. unfold S3.get_access_point_policy.
  now rewrite (try_except_else_caught _ _ _ _ s s' e H eq_refl).
Qed.

(** As [S3.client] is called without [config], the suites of the three
    S3 lookups always raise: the lookups answer [None] whatever AWS
    would say. *)
Lemma s3_lookups_always_none (a r n : string) (s : Aws.state) :
  fst (S3.get_bucket_policy E a r n s) = Ret VNone
  /\ fst (S3.get_bucket_access_point_arn E a r n s) = Ret VNone
  /\ fst (S3.get_access_point_policy E a r n s) = Ret VNone.
Proof. repeat split; reflexivity. Qed.

(** [Athena.get_workgroup] on a [ClientError]: the name it was given
    comes back. *)
Lemma get_workgroup_on_client_error (a r w : string) (role : option string)
      (s s' : Aws.state) (e : exn) :
  Athena.get_workgroup_try E a r w role s = (Raise e, s') ->
  is_ClientError e = true ->
  Athena.get_workgroup E a r w role s
  = (Ret (VStr w),
     add_log (LogRecord INFO
                [T "Workgroup "; V (VStr w); T " cannot be found"; T "due to: "; Py.E e]) s').
Proof.
  intros H Hc. unfold Athena.get_workgroup.
  erewrite bind_returned; [reflexivity |].
  now rewrite (try_except_caught _ _ _ s s' e H Hc).
Qed.

(** ... and on any other exception: it propagates, unlogged. *)
Lemma get_workgroup_on_other_exception (a r w : string) (role : option string)
      (s s' : Aws.state) (e : exn) :
  Athena.get_workgroup_try E a r w role s = (Raise e, s') ->
  is_ClientError e = false ->
  Athena.get_workgroup E a r w role s = (Raise e, s').
Proof.
  intros H Hc. unfold Athena.get_workgroup.
  erewrite bind_raised; [reflexivity |].
  unfold try_except. now rewrite H, Hc.
Qed.

(** [create_bucket_prefix] on a location object: the [TypeError] of
    [S3.client] is logged and raised again; no request leaves and the
    object is as before. *)
Lemma create_bucket_prefix_bound (location : ref) (o : DatasetStorageLocation)
      (s : Aws.state) :
  objects s !! location = Some o ->
  S3.create_bucket_prefix E location s
  = (Raise missing_config,
     add_log (LogRecord ERROR
                [T "Dataset storage location creation failed on S3 for dataset location ";
                 V (VStr (locationUri o)); T " : "; Py.E missing_config]) s).
Proof.
  intros Ho. unfold S3.create_bucket_prefix.
  rewrite (try_except_caught _ _ _ s s missing_config
             (create_bucket_prefix_try_bound location s (ex_intro _ o Ho)) eq_refl).
  unfold S3.create_bucket_prefix_except.
  now rewrite (bind_returned _ _ s s _ (getattr_bound _ _ _ o s Ho)).
Qed.

(** [create_bucket_prefix] never returns, never sends a request and
    never changes a location, whatever it is given. *)
Lemma create_bucket_prefix_always_raises (location : ref) (s : Aws.state) :
  exists (e : exn) (s' : Aws.state),
    S3.create_bucket_prefix E location s = (Raise e, s')
    /\ trace s' = trace s
    /\ objects s' = objects s.
Proof.
  destruct (objects s !! location) as [o |] eqn:Ho.
  - eexists _, _. split; [apply (create_bucket_prefix_bound location o s Ho) | easy].
  - eexists _, _. split; [| split; reflexivity].
    unfold S3.create_bucket_prefix.
    erewrite try_except_caught; [| | reflexivity].
    2:{ unfold S3.create_bucket_prefix_try.
        erewrite bind_raised; [reflexivity | now apply getattr_unbound]. }
    unfold S3.create_bucket_prefix_except.
    erewrite bind_raised; [reflexivity | now apply getattr_unbound].
Qed.

(** The handler never returns: either the lookup fails or
    [create_bucket_prefix] does. *)
Lemma create_dataset_location_always_raises (engine : Aws.Engine) (task : Task)
      (s : Aws.state) :
  exists (e : exn) (s' : Aws.state),
    S3.create_dataset_location E engine task s = (Raise e, s').
Proof.
  unfold S3.create_dataset_location, get_location_by_uri.
  destruct (objects s !! targetUri task) as [o |] eqn:Ho.
  - destruct (create_bucket_prefix_always_raises (targetUri task)
                (add_event (EvDbGet (targetUri task)) s)) as (e & s' & He & _).
    exists e, s'.
    erewrite bind_returned.
    2:{ erewrite bind_returned; [| reflexivity].
        erewrite bind_returned; [| unfold gets; reflexivity].
        cbn. rewrite Ho. reflexivity. }
    erewrite bind_raised; [reflexivity | exact He].
  - eexists _, _.
    erewrite bind_raised; [reflexivity |].
    erewrite bind_returned; [| reflexivity].
    erewrite bind_returned; [| unfold gets; reflexivity].
    cbn. rewrite Ho. reflexivity.
Qed.

(** Whatever the task, its dispatch raises. *)
Lemma dispatch_always_raises (engine : Aws.Engine) (task : Task) (s : Aws.state) :
  exists (e : exn) (s' : Aws.state),
    Worker.dispatch (Worker.handlers E) engine task s = (Raise e, s').
Proof.
  unfold Worker.dispatch, Worker.handlers, Worker.handler.
  destruct (decide ("s3.prefix.create" = action task)) as [Heq | Hne].
  - rewrite <- Heq, lookup_insert_eq.
    destruct (create_dataset_location_always_raises engine task
                (add_event (EvDispatch "s3.prefix.create" (taskUri task)) s))
      as (e & s' & He).
    exists e, s'. erewrite bind_returned; [exact He | reflexivity].
  - rewrite lookup_insert_ne, lookup_empty by exact Hne. eauto.
Qed.

End HandlerFacts.

(** ** The resolver, the parameter stack and the Omics stack *)

Section StackFacts.



(** Two parameter paths of one deployment are equal only when what
    follows the deployment name is. *)
Lemma ssm_tail_inj (envname x y : string) :
  "/dataall/" +:+ envname +:+ x = "/dataall/" +:+ envname +:+ y -> x = y.
Proof.
  intros H. apply (String.app_inj "/dataall/") in H.
  now apply (String.app_inj envname) in H.
Qed.

Variable E : ParamStore.env.

(** The thirty-two draws always give a string and touch no construct. *)
Lemma join_choices_returns (n : nat) (s : ParamStore.state) :
  exists x, ParamStore.join_choices E n s
            = (Ret x, ParamStore.mkState (ParamStore.constructs s) (n + ParamStore.rng s)).
Proof.
  revert s. induction n as [| n IH]; intros [cs r].
  - eexists. reflexivity.
  - destruct (IH (ParamStore.mkState cs (S r))) as [x Hx].
    eexists. cbn [ParamStore.join_choices].
    erewrite bind_returned; [| reflexivity].
    erewrite bind_returned; [| exact Hx].
    cbn. now rewrite Nat.add_succ_r.
Qed.

(** The misspelt class method is no attribute of [StringParameter], so
    the first suite always raises; the fall-backs always give a
    string. *)
Lemma external_id_value_returns (envname : string) (s : ParamStore.state) :
  exists x r, ParamStore.external_id_value E envname s
              = (Ret x, ParamStore.mkState (ParamStore.constructs s) r).
Proof.
  unfold ParamStore.external_id_value.
  erewrite try_except_caught; [| reflexivity | reflexivity].
  unfold try_except, lift.
  destruct (ParamStore.from_secret_complete_arn E _) as [x | e].
  - exists x, (ParamStore.rng s). now destruct s.
  - cbn [is_Exception]. unfold ParamStore._generate_external_id.
    destruct (join_choices_returns 32 s) as [x Hx]. rewrite Hx. eauto.
Qed.

(** What one [aws_ssm.StringParameter] does to the stack. *)
Lemma new_StringParameter_run (p : ParamStore.StringParameter) (s : ParamStore.state) :
  ParamStore.new_StringParameter E p s
  = match ParamStore.string_parameter_refused E (ParamStore.constructs s) p with
    | Some e => (Raise e, s)
    | None => (Ret tt,
               ParamStore.mkState (ParamStore.constructs s ++ [p]) (ParamStore.rng s))
    end.
Proof.
  unfold ParamStore.new_StringParameter.
  erewrite bind_returned; [| reflexivity].
  now destruct (ParamStore.string_parameter_refused E _ p).
Qed.

Lemma new_StringParameter_returned (p : ParamStore.StringParameter)
      (s s' : ParamStore.state) (u : unit) :
  ParamStore.new_StringParameter E p s = (Ret u, s') ->
  ParamStore.constructs s' = (ParamStore.constructs s ++ [p])%list.
Proof.
  rewrite new_StringParameter_run.
  destruct (ParamStore.string_parameter_refused E _ p); [discriminate |].
  now intros [= _ <-].
Qed.

(** A sequence that returned: its first statement returned, and the
    rest ran from there. *)
Lemma bind_returned_inv {St A B} (m : M St A) (k : A -> M St B) (s s' : St) (b : B) :
  (m ≫= k) s = (Ret b, s') ->
  exists (a : A) (s1 : St), m s = (Ret a, s1) /\ k a s1 = (Ret b, s').
Proof.
  unfold mbind, M_bind, bind. destruct (m s) as [[a | e] s1]; [eauto | discriminate].
Qed.

(** A pair of parameters created under a condition. *)
Lemma optional_pair_returned (b : bool) (p1 p2 : ParamStore.StringParameter)
      (s s' : ParamStore.state) (u : unit) :
  (if b then ParamStore.new_StringParameter E p1;; ParamStore.new_StringParameter E p2
   else mret tt) s = (Ret u, s') ->
  ParamStore.constructs s' = (ParamStore.constructs s ++ (if b then [p1; p2] else []))%list.
Proof.
  destruct b.
  - intros H. apply bind_returned_inv in H as (u1 & s1 & H1 & H2).
    apply new_StringParameter_returned in H1, H2.
    now rewrite H2, H1, <- app_assoc.
  - intros [= _ <-]. now rewrite app_nil_r.
Qed.

(** The two parameters of the custom domain. *)
Lemma custom_domain_returned (domain : option (gmap string string))
      (p1 p2 : string -> ParamStore.StringParameter)
      (s s' : ParamStore.state) (u : unit) :
  (if ParamStore.truthy_dict domain then
     zone ← lift (ParamStore.dict_getitem domain "hosted_zone_name");
     ParamStore.new_StringParameter E (p1 zone);;
     ParamStore.new_StringParameter E (p2 zone)
   else mret tt) s = (Ret u, s') ->
  exists zone : string,
    ParamStore.constructs s'
    = (ParamStore.constructs s ++
       (if ParamStore.truthy_dict domain then [p1 zone; p2 zone] else []))%list
    /\ (ParamStore.truthy_dict domain = true ->
        ParamStore.dict_getitem domain "hosted_zone_name" = Ret zone).
Proof.
  destruct (ParamStore.truthy_dict domain).
  - intros H. apply bind_returned_inv in H as (zone & s1 & H1 & H).
    apply bind_returned_inv in H as (u1 & s2 & H2 & H3).
    apply new_StringParameter_returned in H2, H3.
    unfold lift in H1.
    destruct (ParamStore.dict_getitem domain "hosted_zone_name") as [z | e];
      [| discriminate].
    injection H1 as -> ->.
    exists zone. split; [| reflexivity].
    now rewrite H3, H2, <- app_assoc.
  - intros [= _ <-]. exists EmptyString. split; [now rewrite app_nil_r | discriminate].
Qed.

(** The parameters of a construction that completed, in the order of
    their creation: [zone] is the hosted zone of the custom domain and
    [x] the external id. *)
Lemma param_store_completed_run (a : ParamStore.args) (s s' : ParamStore.state) :
  ParamStore.__init__ E a s = (Ret tt, s') ->
  exists zone x : string,
    ParamStore.constructs s'
    = (ParamStore.constructs s ++
       [ParamStore.mkParam ("ResourcePrefixParam" +:+ ParamStore.envname a)
          ("/dataall/" +:+ ParamStore.envname a +:+ "/resourcePrefix")
          (ParamStore.resource_prefix a) None] ++
       (if ParamStore.truthy_dict (ParamStore.custom_domain a) then
          [ParamStore.mkParam ("FrontendCustomDomain" +:+ ParamStore.envname a)
             ("/dataall/" +:+ ParamStore.envname a +:+ "/frontend/custom_domain_name")
             zone None;
           ParamStore.mkParam ("UserGuideCustomDomain" +:+ ParamStore.envname a)
             ("/dataall/" +:+ ParamStore.envname a +:+ "/userguide/custom_domain_name")
             ("userguide." +:+ zone) None]
        else []) ++
       (if ParamStore.enable_cw_canaries a then
          [ParamStore.mkParam ("CWCanariesEnv" +:+ ParamStore.envname a)
             ("/dataall/" +:+ ParamStore.envname a +:+ "/canary/environment_account")
             "updateme(e.g: 1234xxxx)" None;
           ParamStore.mkParam ("CWCanariesRegion" +:+ ParamStore.envname a)
             ("/dataall/" +:+ ParamStore.envname a +:+ "/canary/environment_region")
             "updateme(e.g: eu-west-1)" None]
        else []) ++
       (if ParamStore.quicksight_enabled a then
          [ParamStore.mkParam ("QSVPCConnectionIdEnv" +:+ ParamStore.envname a)
             ("/dataall/" +:+ ParamStore.envname a +:+
              "/quicksightmonitoring/VPCConnectionId")
             "updateme" None;
           ParamStore.mkParam ("QSDashboardIdEnv" +:+ ParamStore.envname a)
             ("/dataall/" +:+ ParamStore.envname a +:+
              "/quicksightmonitoring/DashboardId")
             "updateme" None]
        else []) ++
       [ParamStore.mkParam ("dataallQuicksightConfiguration" +:+ ParamStore.envname a)
          ("/dataall/" +:+ ParamStore.envname a +:+ "/quicksight/sharedDashboardsSessions")
          (ParamStore.shared_dashboard_sessions a) None;
        ParamStore.mkParam ("dataallCreationPivotRole" +:+ ParamStore.envname a)
          ("/dataall/" +:+ ParamStore.envname a +:+ "/pivotRole/enablePivotRoleAutoCreate")
          (str_bool (ParamStore.enable_pivot_role_auto_create a)) None;
        ParamStore.mkParam ("dataallPivotRoleName" +:+ ParamStore.envname a)
          ("/dataall/" +:+ ParamStore.envname a +:+ "/pivotRole/pivotRoleName")
          (ParamStore.pivot_role_name a)
          (Some ("Stores dataall pivot role name for environment " +:+
                 ParamStore.envname a));
        ParamStore.mkParam ("dataallExternalId" +:+ ParamStore.envname a)
          ("/dataall/" +:+ ParamStore.envname a +:+ "/pivotRole/externalId")
          x
          (Some ("Stores dataall external id for environment " +:+
                 ParamStore.envname a))])%list
    /\ (ParamStore.truthy_dict (ParamStore.custom_domain a) = true ->
        ParamStore.dict_getitem (ParamStore.custom_domain a) "hosted_zone_name" = Ret zone).
Proof.
  unfold ParamStore.__init__. intros H.
  apply bind_returned_inv in H as (u1 & s1 & H1 & H).
  apply bind_returned_inv in H as (u2 & s2 & H2 & H).
  apply bind_returned_inv in H as (u3 & s3 & H3 & H).
  apply bind_returned_inv in H as (u4 & s4 & H4 & H).
  apply bind_returned_inv in H as (u5 & s5 & H5 & H).
  apply bind_returned_inv in H as (u6 & s6 & H6 & H).
  apply bind_returned_inv in H as (u7 & s7 & H7 & H).
  apply bind_returned_inv in H as (x & s8 & H8 & H).
  apply new_StringParameter_returned in H1, H5, H6, H7, H.
  apply optional_pair_returned in H3, H4.
  apply (custom_domain_returned (ParamStore.custom_domain a)
           (fun zone => ParamStore.mkParam _ _ zone None)
           (fun zone => ParamStore.mkParam _ _ ("userguide." +:+ zone) None))
    in H2 as (zone & H2 & Hzone).
  destruct (external_id_value_returns (ParamStore.envname a) s7) as (x' & r & Hx).
  rewrite Hx in H8. injection H8 as -> <-.
  exists zone, x. split; [| exact Hzone].
  rewrite H. cbn [ParamStore.constructs].
  rewrite H7, H6, H5, H4, H3, H2, H1.
  now rewrite <- !app_assoc.
Qed.









End StackFacts.

Section OmicsFacts.

Variable E : Omics.env.

(** [get_target] asks for an engine, then reads the pipeline once. *)
Lemma get_target_run (target_uri : string) (s : Omics.state) :
  Omics.get_target E target_uri s
  = match Omics.db_get_engine E (Omics.environ_get E "envname" "local") with
    | Ret _ => (Ret (Omics.pipelines E !! target_uri),
                Omics.mkState (Omics.files s) (Omics.logs s) (Omics.stdout s)
                              (Omics.constructs s)
                              (Omics.reads s ++ [Omics.QueryPipeline target_uri]))
    | Raise e => (Raise e, s)
    end.
Proof.
  unfold Omics.get_target, Omics.get_engine, lift.
  unfold mbind, M_bind, bind.
  destruct (Omics.db_get_engine E _); reflexivity.
Qed.

(** [get_pipeline_environment] passes [envname] to a method that takes
    no such argument. *)
Lemma get_pipeline_environment_raises (pipeline : option Omics.OmicsPipeline)
      (s : Omics.state) :
  Omics.get_pipeline_environment E pipeline s
  = (Raise (TypeError (UnexpectedKeyword "get_engine" "envname")), s).
Proof. reflexivity. Qed.

(** Constructing the stack never succeeds, whatever the database and the
    disk hold, and it leaves the disk and the standard output as they
    were. *)
Lemma omics_init_always_raises (id target_uri : string) (s : Omics.state) :
  exists (e : exn) (s' : Omics.state),
    Omics.__init__ E id target_uri s = (Raise e, s')
    /\ Omics.files s' = Omics.files s
    /\ Omics.stdout s' = Omics.stdout s.
Proof.
  unfold Omics.__init__.
  pose proof (get_target_run target_uri) as Ht.
  destruct (Omics.db_get_engine E _) as [engine | e] eqn:He.
  2:{ eexists _, _. split; [erewrite bind_raised; [reflexivity | apply Ht] | easy]. }
  erewrite bind_returned; [| apply Ht].
  destruct (Omics.pipelines E !! target_uri) as [p |] eqn:Hp.
  2:{ eexists _, _. split; [erewrite bind_raised; [reflexivity | reflexivity] | easy]. }
  erewrite bind_returned; [| reflexivity].
  erewrite bind_returned; [| apply Ht].
  erewrite bind_returned; [| reflexivity].
  erewrite bind_returned; [| reflexivity].
  erewrite bind_returned; [| apply Ht].
  eexists _, _. split.
  - erewrite bind_raised; [reflexivity | apply get_pipeline_environment_raises].
  - easy.
Qed.

End OmicsFacts.




(** The handlers of the five mutating S3 operations: an exception [e]
    that leaves the [try] suite of the operation is logged at level
    ERROR, with [e] in the message, and the same [e] is raised to the
    caller. *)
Lemma suite_exception_is_logged_and_raised
      (E : Aws.env) (c : S3.mutating_call) (s s' : Aws.state) (e : exn) :
  S3.receives_location c s ->
  S3.try_suite E c s = (Raise e, s') ->
  exists m, Py.E e ∈ m /\
            S3.perform E c s = (Raise e, add_log (LogRecord ERROR m) s').
Proof.
  intros Hloc Htry.
  destruct c as [location | a r b p | a r b n | a r n | a r n p];
    cbn [S3.try_suite S3.perform] in *.
  - destruct Hloc as [o Ho].
    rewrite (create_bucket_prefix_try_bound E location s (ex_intro _ o Ho)) in Htry.
    injection Htry as <- <-.
    eexists. split; [| apply (create_bucket_prefix_bound E location o s Ho)].
    set_solver.
  - eexists. split; [| unfold S3.create_bucket_policy;
                       now rewrite (try_except_caught _ _ _ s s' e Htry eq_refl)].
    set_solver.
  - eexists. split; [| unfold S3.create_bucket_access_point;
                       now rewrite (try_except_else_caught _ _ _ _ s s' e Htry eq_refl)].
    set_solver.
  - eexists. split; [| unfold S3.delete_bucket_access_point;
                       now rewrite (try_except_caught _ _ _ s s' e Htry eq_refl)].
    set_solver.
  - eexists. split; [| unfold S3.attach_access_point_policy;
                       now rewrite (try_except_caught _ _ _ s s' e Htry eq_refl)].
    set_solver.
Qed.

(** ** The claims *)

Import Fixtures.

(** C1 (read-only lookups return [None] on failure), evaluated where the
    code departs from it.  [Athena.get_workgroup] is asked for the
    workgroup [primary] and AWS answers [get_work_group] with a
    [ClientError]: the failure is logged at level INFO and the call
    returns the name it was given, the string [primary], not [None].
    When the endpoint cannot be reached, the exception is not a
    [ClientError] and leaves the function unlogged. *)
Theorem get_workgroup_returns_its_argument :
  Athena.get_workgroup aws_client_error "111122223333" "eu-west-1" "primary" None one_location
  = (Ret (VStr "primary"),
     Aws.mkState
       [LogRecord INFO [T "Workgroup "; V (VStr "primary"); T " cannot be found";
                        T "due to: ";
                        Py.E (ClientError "get_work_group" "InvalidRequestException")]]
       [EvRemoteSession "111122223333" None;
        EvApi (mkClient (RemoteSession "111122223333" None) "athena" "eu-west-1" None)
              "get_work_group" [("WorkGroup", VStr "primary")]]
       (objects one_location))
  /\ Athena.get_workgroup aws_unreachable "111122223333" "eu-west-1" "primary" None one_location
     = (Raise (OtherException "EndpointConnectionError"),
        Aws.mkState []
          [EvRemoteSession "111122223333" None;
           EvApi (mkClient (RemoteSession "111122223333" None) "athena" "eu-west-1" None)
                 "get_work_group" [("WorkGroup", VStr "primary")]]
          (objects one_location)).
Proof. split; reflexivity. Qed.


(** C3 (one [put_object] per call, [locationCreated] set on success),
    evaluated where the code departs from it.  Whatever it is given,
    [create_bucket_prefix] raises, sends no request and changes no
    location.  In particular, when AWS would accept the request and the
    persisted location [loc-1] is passed, [S3.client] is called without
    [config]: the [TypeError] is logged and raised again, the trace of
    requests stays empty (no [put_object]) and [locationCreated] stays
    [False]. *)
Theorem create_bucket_prefix_sends_nothing :
  (forall (E : Aws.env) (location : ref) (s : Aws.state),
      exists (e : exn) (s' : Aws.state),
        S3.create_bucket_prefix E location s = (Raise e, s')
        /\ trace s' = trace s
        /\ objects s' = objects s)
  /\ S3.create_bucket_prefix aws_ok "loc-1" one_location
     = (Raise missing_config,
        Aws.mkState
          [LogRecord ERROR
             [T "Dataset storage location creation failed on S3 for dataset location ";
              V (VStr "loc-1"); T " : "; Py.E missing_config]]
          []
          {[ "loc-1" := raw_location ]})
  /\ locationCreated raw_location = false.
Proof.
  split; [exact create_bucket_prefix_always_raises |].
  split; reflexivity.
Qed.

(** C4: [create_dataset_location] first resolves the task's [targetUri].
    The lookup is the first event of the run, it happens once, and every
    later event is a request to AWS.  When no location is stored under
    the URI the handler raises and the lookup is the only event; when one
    is, that location is what [create_bucket_prefix] is run on. *)
Theorem create_dataset_location_resolves_first
        (E : Aws.env) (engine : Aws.Engine) (task : Task) (s : Aws.state) :
  exists (r : res ref) (s' : Aws.state) (later : list event),
    S3.create_dataset_location E engine task s = (r, s')
    /\ trace s' = (trace s ++ EvDbGet (targetUri task) :: later)%list
    /\ Forall (fun ev => is_aws_event ev = true) later
    /\ match objects s !! targetUri task with
       | None => r = Raise (ObjectNotFound "DatasetStorageLocation" (targetUri task))
                 /\ later = [] /\ logs s' = logs s /\ objects s' = objects s
       | Some _ => (r, s') = (S3.create_bucket_prefix E (targetUri task) ≫=
                                (fun _ => mret (targetUri task)))
                               (add_event (EvDbGet (targetUri task)) s)
       end.
Proof.
  unfold S3.create_dataset_location, get_location_by_uri.
  destruct (objects s !! targetUri task) as [o |] eqn:Ho.
  - assert (Hb : objects (add_event (EvDbGet (targetUri task)) s) !! targetUri task = Some o)
      by exact Ho.
    pose proof (create_bucket_prefix_bound E _ o _ Hb) as Hp.
    eexists _, _, [].
    split; [| split; [| split]].
    + erewrite bind_returned.
      2:{ erewrite bind_returned; [| reflexivity].
          erewrite bind_returned; [| unfold gets; reflexivity].
          cbn. rewrite Ho. reflexivity. }
      erewrite bind_raised; [reflexivity | exact Hp].
    + reflexivity.
    + constructor.
    + erewrite bind_raised; [reflexivity | exact Hp].
  - eexists _, _, [].
    split; [| split; [| split]].
    + erewrite bind_raised; [reflexivity |].
      erewrite bind_returned; [| reflexivity].
      erewrite bind_returned; [| unfold gets; reflexivity].
      cbn. rewrite Ho. reflexivity.
    + reflexivity.
    + constructor.
    + repeat split; reflexivity.
Qed.

(** C5 (the handler registered under [s3.prefix.create] returns the
    resolved location), evaluated where the code departs from it.  The
    handler is found under its key, and the dispatch of the task
    [task-1] invokes it once with the engine and the task; it resolves
    the location [loc-1] but does not return it: [create_bucket_prefix]
    raises the [TypeError] of [S3.client], and so does the dispatch.  No
    task is answered with a location: every dispatch raises. *)
Theorem dispatch_prefix_create_raises :
  (forall E : Aws.env,
      Worker.handlers E !! "s3.prefix.create" = Some (S3.create_dataset_location E))
  /\ (forall (E : Aws.env) (engine : Aws.Engine) (task : Task) (s : Aws.state),
         exists (e : exn) (s' : Aws.state),
           Worker.dispatch (Worker.handlers E) engine task s = (Raise e, s'))
  /\ Worker.dispatch (Worker.handlers aws_ok) local_engine prefix_task one_location
     = (Raise missing_config,
        Aws.mkState
          [LogRecord ERROR
             [T "Dataset storage location creation failed on S3 for dataset location ";
              V (VStr "loc-1"); T " : "; Py.E missing_config]]
          [EvDispatch "s3.prefix.create" "task-1"; EvDbGet "loc-1"]
          {[ "loc-1" := raw_location ]}).
Proof.
  split; [intros E; apply lookup_insert_eq |].
  split; [exact dispatch_always_raises | reflexivity].
Qed.

(** C6: when the account of the caller is known, [update_ssm_parameter]
    called with a name and a value makes exactly one call of the
    parameter store manager, for the parameter
    ['/dataall/' + envname + '/quicksightmonitoring/' + name] (with
    [envname] read from the process environment, [local] by default) and
    the given value, and what the manager answers is what the resolver
    answers; besides, the value and the name are printed. *)
Theorem update_ssm_parameter_updates_one_parameter
        (E : Tenant.env) (context : Tenant.Context) (source : value)
        (name : string) (value : option string) (s : Tenant.state) (account : string) :
  Tenant.get_account E = Ret account ->
  let update :=
    Tenant.mkUpdate account (Tenant.getenv E "AWS_REGION" "eu-west-1")
      ("/dataall/" +:+ Tenant.getenv E "envname" "local" +:+ "/quicksightmonitoring/" +:+ name)
      value in
  Tenant.update_ssm_parameter E context source (Some name) value s
  = (Tenant.update_parameter E update,
     Tenant.mkState (Tenant.stdout s ++ [value; Some name])
                    (Tenant.updates s ++ [update])).
Proof.
  intros Hacc update.
  unfold Tenant.update_ssm_parameter, Tenant.ParameterStoreManager_update_parameter,
         Tenant.print, lift, modify.
  unfold mbind, M_bind, bind, mret, M_ret, ret.
  rewrite Hacc. cbn [Tenant.stdout Tenant.updates Tenant.fmt].
  fold update. rewrite <- app_assoc. cbn [app].
  destruct (Tenant.update_parameter E update); reflexivity.
Qed.

Lemma update_ssm_parameter_updates_one_parameter_witness :
  Tenant.get_account tenant_world = Ret "111122223333"
  /\ Tenant.update_ssm_parameter tenant_world admin_context VNone
       (Some "DashboardId") (Some "dash-42") quiet
     = (Ret (VStr "updated"),
        Tenant.mkState
          [Some "dash-42"; Some "DashboardId"]
          [Tenant.mkUpdate "111122223333" "eu-west-1"
             "/dataall/local/quicksightmonitoring/DashboardId" (Some "dash-42")]).
Proof.
  split; [reflexivity |].
  exact (update_ssm_parameter_updates_one_parameter tenant_world admin_context VNone
           "DashboardId" (Some "dash-42") quiet "111122223333" eq_refl).
Defined.




(** C8 (constructing the stack reads the pipeline and its environment,
    writes [app.py], zips the blueprint and hands it to the CDK
    constructs), evaluated where the code departs from it.  The
    constructor never completes, whatever the database holds, and never
    touches a file.  With the pipeline [pipe-1] stored, it reads the
    pipeline three times and creates the stack itself; then
    [get_pipeline_environment] calls [get_engine] with the keyword
    [envname], which that method does not take: a [TypeError] is raised
    before the environment is read, and no file is written, no archive
    made and no repository or pipeline construct created. *)
Theorem omics_stack_is_never_built :
  (forall (E : Omics.env) (id target_uri : string) (s : Omics.state),
      exists (e : exn) (s' : Omics.state),
        Omics.__init__ E id target_uri s = (Raise e, s')
        /\ Omics.files s' = Omics.files s
        /\ Omics.stdout s' = Omics.stdout s)
  /\ Omics.__init__ omics_world "omics-stack" "pipe-1" empty_disk
     = (Raise (TypeError (UnexpectedKeyword "get_engine" "envname")),
        Omics.mkState ∅ [] []
          [Omics.CStack "omics-stack"
             "Cloud formation stack of OMICS PIPELINE: Genome; URI: pipe-1; DESCRIPTION: Variant calling"]
          [Omics.QueryPipeline "pipe-1"; Omics.QueryPipeline "pipe-1";
           Omics.QueryPipeline "pipe-1"]).
Proof.
  split; [exact omics_init_always_raises | reflexivity].
Qed.

(** C9: [get_presigned_url] never returns: its call of [S3.client]
    leaves out [account_id] and [client_type], so it raises a
    [TypeError] with the state untouched (nothing logged, nothing sent).
    [get_presigned_post] stops at the same call; and given any client,
    its [try] suite never returns either: when both AWS calls succeed it
    raises the [NameError] of the name [json]. *)
Theorem presigned_operations_never_return
        (E : Aws.env) (account_id region bucket key : string) (s : Aws.state) :
  S3.get_presigned_url E region bucket key s
  = (Raise (TypeError (MissingArguments "client" ["account_id"; "client_type"])), s)
  /\ S3.get_presigned_post E account_id region bucket key s
     = (Raise (TypeError (MissingArguments "client" ["account_id"; "client_type"])), s)
  /\ forall s3_client : boto_client,
      fst (S3.get_presigned_post_try E s3_client account_id bucket key s)
      = match api E s3_client "get_bucket_acl"
                [("Bucket", VStr bucket); ("ExpectedBucketOwner", VStr account_id)] with
        | Raise e => Raise e
        | Ret _ =>
            match api E s3_client "generate_presigned_post"
                      [("Bucket", VStr bucket); ("Key", VStr key);
                       ("ExpiresIn", VInt 900)] with
            | Raise e => Raise e
            | Ret _ => Raise (NameError "json")
            end
        end.
Proof.
  split; [reflexivity |]. split; [reflexivity |].
  intros s3_client.
  unfold S3.get_presigned_post_try, try_except, call, lift, emit, modify.
  unfold mbind, M_bind, bind. cbn.
  destruct (api E s3_client "get_bucket_acl" _) as [v1 | e1].
  - cbn. destruct (api E s3_client "generate_presigned_post" _) as [v2 | e2].
    + reflexivity.
    + cbn. destruct (is_ClientError e2); reflexivity.
  - cbn. destruct (is_ClientError e1); reflexivity.
Qed.

(** C10: [generate_access_point_policy_template] is a function of its
    three arguments alone.  Its result has [Version] 2012-10-17 and
    exactly two statements, both with effect Allow: the first, with Sid
    [principal_id + '0'], grants [s3:ListBucket] on [access_point_arn]
    under the conditions [s3:prefix] like [s3_prefix + '/*'] and
    [aws:userId] like [principal_id + ':*']; the second, with Sid
    [principal_id + '1'], grants [s3:GetObject] on
    [access_point_arn + '/object/' + s3_prefix + '/*'] under the
    condition [aws:userId] like [principal_id + ':*']. *)
Theorem access_point_policy_template_shape
        (principal_id access_point_arn s3_prefix : string) :
  let policy :=
    S3.generate_access_point_policy_template principal_id access_point_arn s3_prefix in
  getitem policy "Version" = Ret (VStr "2012-10-17")
  /\ exists first second : value,
      getitem policy "Statement" = Ret (VList [first; second])
      /\ getitem first "Sid" = Ret (VStr (principal_id +:+ "0"))
      /\ getitem first "Effect" = Ret (VStr "Allow")
      /\ getitem first "Action" = Ret (VStr "s3:ListBucket")
      /\ getitem first "Resource" = Ret (VStr access_point_arn)
      /\ getpath first ["Condition"; "StringLike"; "s3:prefix"]
         = Ret (VList [VStr (s3_prefix +:+ "/*")])
      /\ getpath first ["Condition"; "StringLike"; "aws:userId"]
         = Ret (VList [VStr (principal_id +:+ ":*")])
      /\ getitem second "Sid" = Ret (VStr (principal_id +:+ "1"))
      /\ getitem second "Effect" = Ret (VStr "Allow")
      /\ getitem second "Action" = Ret (VStr "s3:GetObject")
      /\ getitem second "Resource"
         = Ret (VList [VStr (access_point_arn +:+ "/object/" +:+ s3_prefix +:+ "/*")])
      /\ getpath second ["Condition"; "StringLike"]
         = Ret (VDict [("aws:userId", VList [VStr (principal_id +:+ ":*")])]).
Proof.
  cbv zeta. split; [reflexivity |].
  eexists _, _. repeat split; reflexivity.
Qed.


(** ** Further properties of the handlers *)

Import Fixtures MoreFixtures.

(** X1: the three S3 lookups answer [None] for every input and every
    behaviour of AWS: [S3.client] is called without [config], so the
    suite raises before any request; one record is logged, carrying the
    [TypeError], and nothing else changes. *)
Theorem s3_lookups_answer_none_without_a_request
        (E : Aws.env) (account_id region name : string) (s : Aws.state) :
  S3.get_bucket_policy E account_id region name s
  = (Ret VNone,
     add_log (LogRecord WARNING [T "Failed to get bucket policy of "; V (VStr name);
                                 T " : "; Py.E missing_config]) s)
  /\ S3.get_bucket_access_point_arn E account_id region name s
     = (Ret VNone,
        add_log (LogRecord INFO [T "Failed to get S3 bucket access point "; V (VStr name);
                                 T " on "; V (VStr account_id); T " : ";
                                 Py.E missing_config]) s)
  /\ S3.get_access_point_policy E account_id region name s
     = (Ret VNone,
        add_log (LogRecord INFO [T "Failed to get policy of access point "; V (VStr name);
                                 T " on "; V (VStr account_id); T " : ";
                                 Py.E missing_config]) s).
Proof. repeat split; reflexivity. Qed.

(** X2: none of the five mutating operations reaches AWS.  Given its
    arguments (a location object for [create_bucket_prefix]), each one
    raises the [TypeError] of [S3.client], logs exactly one record, at
    ERROR, and leaves the trace of requests and the stored objects as
    they were. *)
Theorem s3_writes_raise_without_a_request
        (E : Aws.env) (c : S3.mutating_call) (s : Aws.state) :
  S3.receives_location c s ->
  exists s' : Aws.state,
    S3.perform E c s = (Raise missing_config, s')
    /\ trace s' = trace s
    /\ objects s' = objects s
    /\ exists m, logs s' = (logs s ++ [LogRecord ERROR m])%list.
Proof.
  intros Hloc.
  destruct c as [location | a r b p | a r b n | a r n | a r n p];
    cbn [S3.perform].
  - destruct Hloc as [o Ho].
    rewrite (create_bucket_prefix_bound E location o s Ho).
    eexists. repeat split. eexists. reflexivity.
  - eexists. repeat split. eexists. reflexivity.
  - eexists. repeat split. eexists. reflexivity.
  - eexists. repeat split. eexists. reflexivity.
  - eexists. repeat split. eexists. reflexivity.
Qed.

Lemma s3_writes_raise_without_a_request_witness :
  S3.receives_location (S3.DeleteBucketAccessPoint "111122223333" "eu-west-1" "ap") one_location
  /\ exists s' : Aws.state,
      S3.perform aws_ok (S3.DeleteBucketAccessPoint "111122223333" "eu-west-1" "ap") one_location
      = (Raise missing_config, s')
      /\ trace s' = trace one_location
      /\ objects s' = objects one_location
      /\ exists m, logs s' = (logs one_location ++ [LogRecord ERROR m])%list.
Proof.
  split; [exact I |].
  exact (s3_writes_raise_without_a_request aws_ok
           (S3.DeleteBucketAccessPoint "111122223333" "eu-west-1" "ap") one_location I).
Defined.

(** X3: what [S3.client] does when all four arguments are given.  With
    a non-empty [account_id] it asks for one remote session of that
    account and returns a client of the requested service, without the
    [config]; with an empty one it logs, asks for the central session
    and returns an [s3] client with the [config], whatever
    [client_type] was asked for.  An exception of the session request
    propagates; no API request is sent either way. *)
Theorem s3_client_with_all_arguments
        (E : Aws.env) (account_id region client_type : string) (config : Config)
        (s : Aws.state) :
  S3.client E (Passed account_id) (Passed region) (Passed client_type) (Passed config) s
  = if truthy_str account_id then
      (match sts_remote_session E account_id None with
       | None => Ret (mkClient (RemoteSession account_id None) client_type region None)
       | Some e => Raise e
       end,
       add_event (EvRemoteSession account_id None) s)
    else
      (match sts_get_session E with
       | None => Ret (mkClient CentralSession "s3" region (Some config))
       | Some e => Raise e
       end,
       add_event EvGetSession
                 (add_log (LogRecord INFO [T "S3 session in central account"]) s)).
Proof.
  unfold S3.client, remote_session, get_session, emit, Aws.log, modify.
  unfold mbind, M_bind, bind, mret, M_ret, ret, raise.
  destruct (truthy_str account_id); cbn.
  - destruct (sts_remote_session E account_id None); reflexivity.
  - destruct (sts_get_session E); reflexivity.
Qed.

(** X5: every outcome of [Athena.get_workgroup].  It asks for one remote
    session and, if that succeeds, sends one [get_work_group] request;
    it returns the response when both succeed.  A [ClientError] of
    either step is logged at INFO and the workgroup name is returned;
    any other exception propagates unlogged.  When the session fails, no
    request is sent to Athena. *)
Theorem get_workgroup_outcomes
        (E : Aws.env) (account_id region workgroup : string) (role : option string)
        (s : Aws.state) :
  let s1 := add_event (EvRemoteSession account_id role) s in
  let athena := mkClient (RemoteSession account_id role) "athena" region None in
  let request := [("WorkGroup", VStr workgroup)] in
  let s2 := add_event (EvApi athena "get_work_group" request) s1 in
  let swallowed (e : exn) (s : Aws.state) :=
    (Ret (VStr workgroup),
     add_log (LogRecord INFO [T "Workgroup "; V (VStr workgroup); T " cannot be found";
                              T "due to: "; Py.E e]) s) in
  Athena.get_workgroup E account_id region workgroup role s
  = match sts_remote_session E account_id role with
    | Some e => if is_ClientError e then swallowed e s1 else (Raise e, s1)
    | None =>
        match api E athena "get_work_group" request with
        | Ret response => (Ret response, s2)
        | Raise e => if is_ClientError e then swallowed e s2 else (Raise e, s2)
        end
    end.
Proof.
  cbv zeta.
  unfold Athena.get_workgroup, Athena.get_workgroup_try, Athena.client, try_except,
         remote_session, call, emit, Aws.log, modify, lift.
  unfold mbind, M_bind, bind, mret, M_ret, ret, raise.
  cbn.
  destruct (sts_remote_session E account_id role) as [e |]; cbn.
  - destruct (is_ClientError e); reflexivity.
  - destruct (api E _ _ _) as [v | e]; cbn; [reflexivity |].
    destruct (is_ClientError e); reflexivity.
Qed.

(** ** Strings *)

Lemma length_append (a b : string) :
  String.length (a +:+ b) = String.length a + String.length b.
Proof. induction a as [| c a IH]; simpl; [reflexivity | now rewrite IH]. Qed.

(** [a + t == b + t] only when [a == b]. *)
Lemma append_inv_tail (t a b : string) : a +:+ t = b +:+ t -> a = b.
Proof.
  revert b. induction a as [| c a IH]; intros [| d b] H.
  - reflexivity.
  - apply (f_equal String.length) in H. rewrite !length_append in H. simpl in H. lia.
  - apply (f_equal String.length) in H. rewrite !length_append in H. simpl in H. lia.
  - change (String c (a +:+ t) = String d (b +:+ t)) in H.
    injection H as -> H. f_equal. now apply IH.
Qed.

(** X6: within one policy the two statements never share their Sid,
    whatever the principal. *)
Theorem access_point_policy_sids_differ
        (principal_id access_point_arn s3_prefix : string) :
  exists first second : value,
    getitem (S3.generate_access_point_policy_template principal_id access_point_arn s3_prefix)
            "Statement"
    = Ret (VList [first; second])
    /\ getitem first "Sid" <> getitem second "Sid".
Proof.
  eexists _, _. split; [reflexivity |].
  cbn. intros H. injection H as H.
  apply (String.app_inj principal_id) in H. discriminate H.
Qed.

(** X7: the template loses nothing: two calls that give the same policy
    were given the same principal, the same access point and the same
    prefix. *)
Theorem access_point_policy_template_injective
        (principal_id access_point_arn s3_prefix
         principal_id' access_point_arn' s3_prefix' : string) :
  S3.generate_access_point_policy_template principal_id access_point_arn s3_prefix
  = S3.generate_access_point_policy_template principal_id' access_point_arn' s3_prefix' ->
  principal_id = principal_id' /\ access_point_arn = access_point_arn'
  /\ s3_prefix = s3_prefix'.
Proof.
  unfold S3.generate_access_point_policy_template. intros H.
  injection H as Hsid Harn Hprefix _ _ _ _.
  split; [now apply (append_inv_tail "0") | split; [exact Harn |]].
  now apply (append_inv_tail "/*").
Qed.

Lemma access_point_policy_template_injective_witness :
  S3.generate_access_point_policy_template "AROAEXAMPLE" "arn:ap" "raw"
  = S3.generate_access_point_policy_template "AROAEXAMPLE" "arn:ap" "raw"
  /\ "AROAEXAMPLE" = "AROAEXAMPLE" /\ "arn:ap" = "arn:ap" /\ "raw" = "raw".
Proof.
  split; [reflexivity |].
  exact (access_point_policy_template_injective "AROAEXAMPLE" "arn:ap" "raw"
           "AROAEXAMPLE" "arn:ap" "raw" eq_refl).
Defined.

(** ** Further properties of the resolvers *)

(** X8: called without a name, [update_ssm_parameter] does not fail: the
    missing name is formatted as the text [None], and the parameter
    ['/dataall/' + envname + '/quicksightmonitoring/None'] is the one
    updated. *)
Theorem update_ssm_parameter_without_name
        (E : Tenant.env) (context : Tenant.Context) (source : value)
        (value : option string) (s : Tenant.state) (account : string) :
  Tenant.get_account E = Ret account ->
  exists s' : Tenant.state,
    Tenant.update_ssm_parameter E context source None value s
    = (Tenant.update_parameter E
         (Tenant.mkUpdate account (Tenant.getenv E "AWS_REGION" "eu-west-1")
            ("/dataall/" +:+ Tenant.getenv E "envname" "local" +:+
             "/quicksightmonitoring/None") value),
       s')
    /\ Tenant.updates s'
       = (Tenant.updates s ++
          [Tenant.mkUpdate account (Tenant.getenv E "AWS_REGION" "eu-west-1")
             ("/dataall/" +:+ Tenant.getenv E "envname" "local" +:+
              "/quicksightmonitoring/None") value])%list.
Proof.
  intros Hacc.
  unfold Tenant.update_ssm_parameter, Tenant.ParameterStoreManager_update_parameter,
         Tenant.print, lift, modify.
  unfold mbind, M_bind, bind, mret, M_ret, ret.
  rewrite Hacc. cbn [Tenant.stdout Tenant.updates Tenant.fmt].
  destruct (Tenant.update_parameter E _); eexists; split; reflexivity.
Qed.

Lemma update_ssm_parameter_without_name_witness :
  Tenant.get_account tenant_world = Ret "111122223333"
  /\ exists s' : Tenant.state,
      Tenant.update_ssm_parameter tenant_world admin_context VNone None (Some "v") quiet
      = (Ret (VStr "updated"), s')
      /\ Tenant.updates s'
         = [Tenant.mkUpdate "111122223333" "eu-west-1"
              "/dataall/local/quicksightmonitoring/None" (Some "v")].
Proof.
  split; [reflexivity |].
  exact (update_ssm_parameter_without_name tenant_world admin_context VNone (Some "v")
           quiet "111122223333" eq_refl).
Defined.

(** X9: when the account of the caller cannot be determined, the
    exception of [SessionHelper.get_account] leaves the resolver as it
    is: nothing is printed and the parameter store is not called. *)
Theorem update_ssm_parameter_without_account
        (E : Tenant.env) (context : Tenant.Context) (source : value)
        (name value : option string) (s : Tenant.state) (e : exn) :
  Tenant.get_account E = Raise e ->
  Tenant.update_ssm_parameter E context source name value s = (Raise e, s).
Proof.
  intros Hacc. unfold Tenant.update_ssm_parameter.
  erewrite bind_raised; [reflexivity |]. unfold lift. now rewrite Hacc.
Qed.

Lemma update_ssm_parameter_without_account_witness :
  Tenant.get_account no_account_world = Raise (ClientError "GetCallerIdentity" "ExpiredToken")
  /\ Tenant.update_ssm_parameter no_account_world admin_context VNone
       (Some "DashboardId") (Some "dash-42") quiet
     = (Raise (ClientError "GetCallerIdentity" "ExpiredToken"), quiet).
Proof.
  split; [reflexivity |].
  exact (update_ssm_parameter_without_account no_account_world admin_context VNone
           (Some "DashboardId") (Some "dash-42") quiet _ eq_refl).
Defined.

(** X10: [list_tenant_groups] makes exactly one call of the tenant
    policy API, always with [uri=None] and [check_perm=True]; a falsy
    filter ([None], an empty dict, ...) is replaced by the empty dict,
    so the API never receives [None] as data.  What the API answers or
    raises is what the resolver answers or raises. *)
Theorem list_tenant_groups_one_checked_call
        (E : TenantPermissions.env) (context : Tenant.Context) (source filter : value)
        (s : TenantPermissions.state) :
  exists data : value,
    TenantPermissions.list_tenant_groups E context source filter s
    = (TenantPermissions.tenant_policy E
         (TenantPermissions.ListTenantGroups (Tenant.username context)
            (Tenant.groups context) VNone data true),
       (s ++ [TenantPermissions.ListTenantGroups (Tenant.username context)
                (Tenant.groups context) VNone data true])%list)
    /\ data = (if TenantPermissions.truthy filter then filter else VDict [])
    /\ data <> VNone.
Proof.
  eexists. split; [reflexivity |]. split.
  - now destruct (TenantPermissions.truthy filter).
  - destruct filter; cbn; try discriminate.
    + now destruct b.
    + now destruct (negb (n =? 0)%Z).
    + now destruct s0.
    + now destruct l.
    + now destruct d.
Qed.

(** X11: [update_group_permissions] reads [input['groupUri']] before it
    calls the tenant policy API: an input that is [None] or has no
    [groupUri] raises ([TypeError], [KeyError]) and no call is made. *)
Theorem update_group_permissions_needs_group_uri
        (E : TenantPermissions.env) (context : Tenant.Context) (source input : value)
        (s : TenantPermissions.state) (e : exn) :
  getitem input "groupUri" = Raise e ->
  TenantPermissions.update_group_permissions E context source input s = (Raise e, s).
Proof.
  intros H. unfold TenantPermissions.update_group_permissions.
  erewrite bind_raised; [reflexivity |]. unfold lift. now rewrite H.
Qed.

Lemma update_group_permissions_needs_group_uri_witness :
  getitem (VDict [("permissions", VList [VStr "MANAGE_GROUPS"])]) "groupUri"
  = Raise (KeyError "groupUri")
  /\ TenantPermissions.update_group_permissions policy_world admin_context VNone
       (VDict [("permissions", VList [VStr "MANAGE_GROUPS"])]) []
     = (Raise (KeyError "groupUri"), []).
Proof.
  split; [reflexivity |].
  exact (update_group_permissions_needs_group_uri policy_world admin_context VNone
           (VDict [("permissions", VList [VStr "MANAGE_GROUPS"])]) [] _ eq_refl).
Defined.

(** ** Further properties of the parameter stack *)

Section ParamStoreRun.

Variable E : ParamStore.env.

(** Every index below the length of a string holds a character of it. *)
Lemma get_below (chars : string) (i : nat) :
  i < String.length chars ->
  exists c, String.get i chars = Some c /\ In c (String.list_ascii_of_string chars).
Proof.
  revert i. induction chars as [| c chars IH]; intros i Hi; simpl in Hi; [lia |].
  destruct i as [| i].
  - exists c. split; [reflexivity | now left].
  - destruct (IH i ltac:(lia)) as (c' & Hget & Hin).
    exists c'. split; [exact Hget | now right].
Qed.

(** One draw gives one character of the alphabet and uses one number of
    the generator. *)
Lemma random_choice_run (s : ParamStore.state) :
  exists c : Ascii.ascii,
    ParamStore.random_choice E ParamStore.allowed_chars s
    = (Ret (String c EmptyString),
       ParamStore.mkState (ParamStore.constructs s) (S (ParamStore.rng s)))
    /\ In c (String.list_ascii_of_string ParamStore.allowed_chars).
Proof.
  destruct (get_below ParamStore.allowed_chars
              (ParamStore.draws E (ParamStore.rng s) mod String.length ParamStore.allowed_chars))
    as (c & Hget & Hin).
  { apply Nat.mod_upper_bound. discriminate. }
  exists c. split; [| exact Hin].
  unfold ParamStore.random_choice.
  erewrite bind_returned; [| reflexivity].
  erewrite bind_returned; [| reflexivity].
  cbn [ParamStore.rng ParamStore.constructs]. unfold mret, M_ret, ret.
  now rewrite Hget.
Qed.

Lemma join_choices_run (n : nat) (s : ParamStore.state) :
  exists x : string,
    ParamStore.join_choices E n s
    = (Ret x, ParamStore.mkState (ParamStore.constructs s) (n + ParamStore.rng s))
    /\ String.length x = n
    /\ Forall (fun c => In c (String.list_ascii_of_string ParamStore.allowed_chars))
              (String.list_ascii_of_string x).
Proof.
  revert s. induction n as [| n IH]; intros s.
  - exists EmptyString. destruct s. repeat split. constructor.
  - destruct (random_choice_run s) as (c & Hc & Hin).
    destruct (IH (ParamStore.mkState (ParamStore.constructs s) (S (ParamStore.rng s))))
      as (x & Hx & Hlen & Hall).
    exists (String c x). split; [| split].
    + cbn [ParamStore.join_choices].
      erewrite bind_returned; [| exact Hc].
      erewrite bind_returned; [| exact Hx].
      cbn [ParamStore.rng ParamStore.constructs].
      now rewrite Nat.add_succ_r.
    + simpl. now rewrite Hlen.
    + simpl. now constructor.
Qed.

End ParamStoreRun.

(** X12: [_generate_external_id] always gives an identifier of exactly
    32 characters, each of them an ASCII letter or digit; it consumes 32
    numbers of the generator and creates no construct. *)
Theorem generated_external_id_is_32_alphanumerics
        (E : ParamStore.env) (s : ParamStore.state) :
  exists x : string,
    ParamStore._generate_external_id E s
    = (Ret x, ParamStore.mkState (ParamStore.constructs s) (32 + ParamStore.rng s))
    /\ String.length x = 32
    /\ Forall (fun c => In c (String.list_ascii_of_string
                 "ABCDEFGHIJKLMNOPQRSTUVWXYZabcdefghijklmnopqrstuvwxyz0123456789"))
              (String.list_ascii_of_string x).
Proof. exact (join_choices_run E 32 s). Qed.

(** X13: the external id never comes from the SSM parameter: the lookup
    by path names a method that [aws_ssm.StringParameter] does not have,
    so its suite always raises.  The value is the secret referenced by
    its ARN when that lookup returns, and a freshly generated id when
    it raises; what the parameter lookup would give plays no part. *)
Theorem external_id_never_read_from_parameter
        (E : ParamStore.env) (envname : string) (s : ParamStore.state) :
  ParamStore.external_id_value E envname s
  = match ParamStore.from_secret_complete_arn E
            ("arn:aws:secretsmanager:" +:+ ParamStore.stack_region E +:+ ":" +:+
             ParamStore.stack_account E +:+ ":secret:" +:+
             ("dataall-externalId-" +:+ envname)) with
    | Ret secret => (Ret secret, s)
    | Raise _ => ParamStore._generate_external_id E s
    end.
Proof.
  unfold ParamStore.external_id_value.
  erewrite try_except_caught; [| reflexivity | reflexivity].
  unfold try_except, lift.
  destruct (ParamStore.from_secret_complete_arn E _); reflexivity.
Qed.

(** The paths of one deployment, from what follows the deployment name. *)
Lemma NoDup_ssm_paths (envname : string) (tails : list string) :
  NoDup tails -> NoDup ((fun tail => "/dataall/" +:+ envname +:+ tail) <$> tails).
Proof.
  apply NoDup_fmap_2. intros x y H. now apply (ssm_tail_inj envname).
Qed.

(** The construct ids of one deployment, from what precedes the
    deployment name. *)
Lemma NoDup_construct_ids (envname : string) (heads : list string) :
  NoDup heads -> NoDup ((fun head => head +:+ envname) <$> heads).
Proof.
  apply NoDup_fmap_2. intros x y H. now apply (append_inv_tail envname).
Qed.

Ltac tails_of l :=
  lazymatch l with
  | [] => constr:(@nil string)
  | ("/dataall/" +:+ _ +:+ ?tail) :: ?rest =>
      let rest' := tails_of rest in constr:(tail :: rest')
  end.

Ltac heads_of l :=
  lazymatch l with
  | [] => constr:(@nil string)
  | (?head +:+ _) :: ?rest =>
      let rest' := heads_of rest in constr:(head :: rest')
  end.

Ltac distinct_literals := refine (bool_decide_unpack _ _); vm_compute; exact I.

(** The CDK files a construct of the stack under its id followed by the
    deployment name, with the path separators of the latter replaced. *)
Lemma sanitize_id_app (a b : string) :
  ParamStore.sanitize_id (a +:+ b) = ParamStore.sanitize_id a +:+ ParamStore.sanitize_id b.
Proof.
  induction a as [| c a IH]; [reflexivity |].
  change (String c a +:+ b) with (String c (a +:+ b)).
  cbn [ParamStore.sanitize_id]. rewrite IH.
  now destruct (Ascii.eqb c (Ascii.ascii_of_nat 47)).
Qed.

(** X14: the SSM parameters of a construction that completed have
    pairwise distinct names, and there are exactly five of them plus two
    for each of the options that is on (custom domain, canaries,
    QuickSight monitoring): no parameter is created twice and none
    besides these. *)
Theorem param_store_stack_names_are_distinct
        (E : ParamStore.env) (a : ParamStore.args) (s s' : ParamStore.state) :
  ParamStore.__init__ E a s = (Ret tt, s') ->
  exists created : list ParamStore.StringParameter,
    ParamStore.constructs s' = (ParamStore.constructs s ++ created)%list
    /\ NoDup (ParamStore.parameter_name <$> created)
    /\ length created
       = 5 + (if ParamStore.truthy_dict (ParamStore.custom_domain a) then 2 else 0)
           + (if ParamStore.enable_cw_canaries a then 2 else 0)
           + (if ParamStore.quicksight_enabled a then 2 else 0).
Proof.
  intros Hrun.
  destruct (param_store_completed_run E a s s' Hrun) as (zone & x & Hall & _).
  eexists. split; [exact Hall |].
  destruct (ParamStore.truthy_dict (ParamStore.custom_domain a)),
           (ParamStore.enable_cw_canaries a), (ParamStore.quicksight_enabled a);
    (split; [| reflexivity]);
    cbn [app fmap list_fmap ParamStore.parameter_name];
    match goal with
    | |- NoDup ?l =>
        let tails := tails_of l in
        change (NoDup ((fun tail => "/dataall/" +:+ ParamStore.envname a +:+ tail) <$> tails))
    end;
    apply NoDup_ssm_paths; distinct_literals.
Qed.

Lemma param_store_stack_names_are_distinct_witness :
  let run := ParamStore.__init__ cdk_world prod_args no_constructs in
  run = (Ret tt, snd run)
  /\ exists created : list ParamStore.StringParameter,
       ParamStore.constructs (snd run) = created
       /\ NoDup (ParamStore.parameter_name <$> created)
       /\ length created = 9.
Proof.
  cbv zeta. split; [reflexivity |].
  exact (param_store_stack_names_are_distinct cdk_world prod_args no_constructs
           (snd (ParamStore.__init__ cdk_world prod_args no_constructs)) eq_refl).
Defined.

(** X15: the parameters of a construction that completed have pairwise
    distinct construct ids, as the code writes them and as the CDK files
    them (with every [/] replaced by [--]), for every deployment name:
    the ids the code chooses never make two constructs of the stack
    collide. *)
Theorem param_store_stack_ids_are_distinct
        (E : ParamStore.env) (a : ParamStore.args) (s s' : ParamStore.state) :
  ParamStore.__init__ E a s = (Ret tt, s') ->
  exists created : list ParamStore.StringParameter,
    ParamStore.constructs s' = (ParamStore.constructs s ++ created)%list
    /\ NoDup (ParamStore.construct_id <$> created)
    /\ NoDup (ParamStore.node_id <$> created).
Proof.
  intros Hrun.
  destruct (param_store_completed_run E a s s' Hrun) as (zone & x & Hall & _).
  eexists. split; [exact Hall |].
  destruct (ParamStore.truthy_dict (ParamStore.custom_domain a)),
           (ParamStore.enable_cw_canaries a), (ParamStore.quicksight_enabled a).
  all: split.
  all: cbn [app fmap list_fmap]; unfold ParamStore.node_id.
  all: cbn [ParamStore.construct_id]; rewrite ?sanitize_id_app.
  all: match goal with
       | |- NoDup ?l =>
           let heads := heads_of l in
           first [ change (NoDup ((fun head => head +:+ ParamStore.envname a) <$> heads))
                 | change (NoDup ((fun head => head +:+
                                     ParamStore.sanitize_id (ParamStore.envname a))
                                    <$> heads)) ]
       end.
  all: apply NoDup_construct_ids; distinct_literals.
Qed.

Lemma param_store_stack_ids_are_distinct_witness :
  let run := ParamStore.__init__ cdk_world prod_args no_constructs in
  run = (Ret tt, snd run)
  /\ exists created : list ParamStore.StringParameter,
       ParamStore.constructs (snd run) = created
       /\ NoDup (ParamStore.construct_id <$> created)
       /\ NoDup (ParamStore.node_id <$> created).
Proof.
  cbv zeta. split; [reflexivity |].
  exact (param_store_stack_ids_are_distinct cdk_world prod_args no_constructs
           (snd (ParamStore.__init__ cdk_world prod_args no_constructs)) eq_refl).
Defined.

(** X16: a custom domain that is given but does not name its hosted zone
    always stops the construction.  When the CDK refuses the
    resourcePrefix parameter (a deployment name that no parameter name
    may hold, for one), its exception is raised and nothing has been
    created; otherwise a [KeyError] is raised after the resourcePrefix
    parameter alone has been created. *)
Theorem param_store_stack_needs_hosted_zone
        (E : ParamStore.env) (a : ParamStore.args) (s : ParamStore.state)
        (domain : gmap string string) :
  ParamStore.custom_domain a = Some domain ->
  domain <> ∅ ->
  domain !! "hosted_zone_name" = None ->
  let resource_prefix_param :=
    ParamStore.mkParam ("ResourcePrefixParam" +:+ ParamStore.envname a)
      ("/dataall/" +:+ ParamStore.envname a +:+ "/resourcePrefix")
      (ParamStore.resource_prefix a) None in
  ParamStore.__init__ E a s
  = match ParamStore.string_parameter_refused E (ParamStore.constructs s)
            resource_prefix_param with
    | Some e => (Raise e, s)
    | None =>
        (Raise (KeyError "hosted_zone_name"),
         ParamStore.mkState (ParamStore.constructs s ++ [resource_prefix_param])
                            (ParamStore.rng s))
    end.
Proof.
  intros Hcd Hne Hzone. cbv zeta. unfold ParamStore.__init__.
  pose proof (new_StringParameter_run E
                (ParamStore.mkParam ("ResourcePrefixParam" +:+ ParamStore.envname a)
                   ("/dataall/" +:+ ParamStore.envname a +:+ "/resourcePrefix")
                   (ParamStore.resource_prefix a) None) s) as Hfirst.
  destruct (ParamStore.string_parameter_refused E _ _) as [e |].
  - erewrite bind_raised; [reflexivity | exact Hfirst].
  - erewrite bind_returned; [| exact Hfirst].
    erewrite bind_raised; [reflexivity |].
    rewrite Hcd. unfold ParamStore.truthy_dict, ParamStore.dict_getitem.
    rewrite bool_decide_eq_false_2 by exact Hne. cbn [negb].
    erewrite bind_raised; [reflexivity |].
    unfold lift. now rewrite Hzone.
Qed.

Lemma param_store_stack_needs_hosted_zone_witness :
  ParamStore.custom_domain zoneless_args = Some {[ "hosted_zone_id" := "Z123" ]}
  /\ ParamStore.custom_domain spaced_args = Some {[ "hosted_zone_id" := "Z123" ]}
  /\ ({[ "hosted_zone_id" := "Z123" ]} : gmap string string) <> ∅
  /\ ({[ "hosted_zone_id" := "Z123" ]} : gmap string string) !! "hosted_zone_name" = None
  /\ ParamStore.__init__ cdk_world zoneless_args no_constructs
     = (Raise (KeyError "hosted_zone_name"),
        ParamStore.mkState
          [ParamStore.mkParam "ResourcePrefixParamprod" "/dataall/prod/resourcePrefix"
                              "dataall" None]
          0)
  /\ ParamStore.__init__ cdk_world spaced_args no_constructs
     = (Raise (OtherException
                 "name must only contain letters, numbers, and the following 4 symbols .-_/"),
        no_constructs).
Proof.
  split; [reflexivity |]. split; [reflexivity |].
  split; [apply insert_non_empty |]. split; [reflexivity |]. split.
  - exact (param_store_stack_needs_hosted_zone cdk_world zoneless_args no_constructs
             {[ "hosted_zone_id" := "Z123" ]} eq_refl (insert_non_empty _ _ _) eq_refl).
  - exact (param_store_stack_needs_hosted_zone cdk_world spaced_args no_constructs
             {[ "hosted_zone_id" := "Z123" ]} eq_refl (insert_non_empty _ _ _) eq_refl).
Defined.

(** X17: the resolver and the stack agree on the QuickSight monitoring
    parameters.  In a deployment whose name is in the process
    environment, [update_ssm_parameter] called for [VPCConnectionId] or
    [DashboardId] updates a parameter that [ParamStoreStack] has
    created, whenever the stack was built to completion for that
    deployment with QuickSight monitoring on. *)
Theorem resolver_updates_a_created_parameter
        (T : Tenant.env) (context : Tenant.Context) (source : value)
        (name : string) (value : option string) (t : Tenant.state) (account : string)
        (E : ParamStore.env) (a : ParamStore.args) (s s' : ParamStore.state) :
  Tenant.get_account T = Ret account ->
  Tenant.environ T !! "envname" = Some (ParamStore.envname a) ->
  name = "VPCConnectionId" \/ name = "DashboardId" ->
  ParamStore.quicksight_enabled a = true ->
  ParamStore.__init__ E a s = (Ret tt, s') ->
  exists update : Tenant.ssm_update,
    Tenant.updates (snd (Tenant.update_ssm_parameter T context source (Some name) value t))
    = (Tenant.updates t ++ [update])%list
    /\ Tenant.u_parameter_name update ∈ ParamStore.parameter_name <$> ParamStore.constructs s'.
Proof.
  intros Hacc Henv Hname Hqs Hrun.
  destruct (param_store_completed_run E a s s' Hrun) as (zone & x & Hall & _).
  rewrite Hqs in Hall. rewrite Hall.
  eexists. split.
  - unfold Tenant.update_ssm_parameter, Tenant.ParameterStoreManager_update_parameter,
           Tenant.print, lift, modify.
    unfold mbind, M_bind, bind, mret, M_ret, ret.
    rewrite Hacc. cbn [Tenant.stdout Tenant.updates Tenant.fmt].
    destruct (Tenant.update_parameter T _); reflexivity.
  - cbn [Tenant.u_parameter_name].
    unfold Tenant.getenv. rewrite Henv.
    rewrite !fmap_app, !elem_of_app.
    right. right. right. right. left.
    destruct Hname as [-> | ->]; cbn [fmap list_fmap ParamStore.parameter_name];
      [apply list_elem_of_here | apply list_elem_of_further, list_elem_of_here].
Qed.

Lemma resolver_updates_a_created_parameter_witness :
  let run := ParamStore.__init__ cdk_world monitored_args no_constructs in
  Tenant.get_account prod_tenant_world = Ret "111122223333"
  /\ Tenant.environ prod_tenant_world !! "envname" = Some (ParamStore.envname monitored_args)
  /\ ParamStore.quicksight_enabled monitored_args = true
  /\ run = (Ret tt, snd run)
  /\ exists update : Tenant.ssm_update,
      Tenant.updates (snd (Tenant.update_ssm_parameter prod_tenant_world admin_context VNone
                             (Some "DashboardId") (Some "dash-42") quiet))
      = [update]
      /\ Tenant.u_parameter_name update
         ∈ ParamStore.parameter_name <$> ParamStore.constructs (snd run).
Proof.
  cbv zeta.
  split; [reflexivity |]. split; [reflexivity |]. split; [reflexivity |].
  split; [reflexivity |].
  exact (resolver_updates_a_created_parameter prod_tenant_world admin_context VNone
           "DashboardId" (Some "dash-42") quiet "111122223333"
           cdk_world monitored_args no_constructs
           (snd (ParamStore.__init__ cdk_world monitored_args no_constructs))
           eq_refl eq_refl (or_intror eq_refl) eq_refl eq_refl).
Defined.

(** ** Further properties of the Omics stack *)

Section OmicsFiles.

Variable E : Omics.env.

Lemma take_str_length (n : nat) (s : string) : String.length (take_str n s) <= n.
Proof.
  revert s. induction n as [| n IH]; intros [| c s]; simpl; try lia.
  specialize (IH s). lia.
Qed.

(** Components that are proper names are kept, in order. *)
Lemma normpath_kept (parts rest stack : list string) :
  Forall (fun part => part <> ".." /\ part <> "." /\ part <> EmptyString) parts ->
  Omics.normpath stack (parts ++ rest) = Omics.normpath (rev parts ++ stack) rest.
Proof.
  revert stack. induction parts as [| part parts IH]; intros stack Hclean.
  - reflexivity.
  - apply Forall_cons in Hclean as [(Hup & Hdot & Hempty) Hclean].
    simpl. apply String.eqb_neq in Hup, Hdot, Hempty. rewrite Hup, Hdot, Hempty.
    cbn [orb].
    rewrite (IH _ Hclean). now rewrite <- app_assoc.
Qed.


End OmicsFiles.





(** X21: [write_cdk_app_file] never writes the template.  Given a
    pipeline and an environment it opens [app.py] for writing.  When
    the operating system refuses (the directory does not exist, for
    one), that exception is raised and the disk is as before.
    Otherwise the file is left empty and the [NameError] of the name
    [textwrap], which the module does not import, is raised.  Nothing
    is printed and no other file changes.  Given no pipeline it raises
    an [AttributeError] before touching the disk. *)
Theorem write_cdk_app_file_leaves_app_py_empty
        (E : Omics.env) (code_dir_path : string) (pipeline : Omics.OmicsPipeline)
        (environment : Omics.Env.Environment) (s : Omics.state) :
  Omics.write_cdk_app_file E code_dir_path (Some pipeline) (Some environment) s
  = match Omics.os_refuses E (Omics.OpenForWriting (code_dir_path +:+ "/app.py")) with
    | Some e => (Raise e, s)
    | None =>
        (Raise (NameError "textwrap"),
         Omics.mkState (<[code_dir_path +:+ "/app.py" := EmptyString]> (Omics.files s))
                       (Omics.logs s) (Omics.stdout s) (Omics.constructs s) (Omics.reads s))
    end
  /\ Omics.write_cdk_app_file E code_dir_path None (Some environment) s
     = (Raise (AttributeError "NoneType" "name"), s).
Proof.
  split; [| reflexivity].
  unfold Omics.write_cdk_app_file, Omics.os_attempt.
  erewrite bind_returned; [| reflexivity].
  erewrite bind_returned; [| reflexivity].
  destruct (Omics.os_refuses E _) as [e |]; reflexivity.
Qed.

(** X22: a target that is not in the database does not stop
    [get_target], which returns [None]; the constructor then fails on
    the label of that [None] with an [AttributeError], after one read of
    the database and before any construct is created. *)
Theorem omics_stack_unknown_target
        (E : Omics.env) (id target_uri : string) (s : Omics.state) (engine : Omics.Engine) :
  Omics.db_get_engine E (Omics.environ_get E "envname" "local") = Ret engine ->
  Omics.pipelines E !! target_uri = None ->
  Omics.get_target E target_uri s
  = (Ret None,
     Omics.mkState (Omics.files s) (Omics.logs s) (Omics.stdout s) (Omics.constructs s)
                   (Omics.reads s ++ [Omics.QueryPipeline target_uri]))
  /\ Omics.__init__ E id target_uri s
     = (Raise (AttributeError "NoneType" "label"),
        Omics.mkState (Omics.files s) (Omics.logs s) (Omics.stdout s) (Omics.constructs s)
                      (Omics.reads s ++ [Omics.QueryPipeline target_uri])).
Proof.
  intros Hengine Hnone.
  pose proof (get_target_run E target_uri s) as Ht.
  rewrite Hengine, Hnone in Ht.
  split; [exact Ht |].
  unfold Omics.__init__.
  erewrite bind_returned; [| exact Ht].
  erewrite bind_raised; reflexivity.
Qed.

Lemma omics_stack_unknown_target_witness :
  Omics.db_get_engine empty_database (Omics.environ_get empty_database "envname" "local")
  = Ret (Omics.mkEngine "local")
  /\ Omics.pipelines empty_database !! "pipe-9" = None
  /\ Omics.get_target empty_database "pipe-9" empty_disk
     = (Ret None, Omics.mkState ∅ [] [] [] [Omics.QueryPipeline "pipe-9"])
  /\ Omics.__init__ empty_database "omics-stack" "pipe-9" empty_disk
     = (Raise (AttributeError "NoneType" "label"),
        Omics.mkState ∅ [] [] [] [Omics.QueryPipeline "pipe-9"]).
Proof.
  split; [reflexivity |]. split; [reflexivity |].
  exact (omics_stack_unknown_target empty_database "omics-stack" "pipe-9" empty_disk
           (Omics.mkEngine "local") eq_refl eq_refl).
Defined.

(** X23: the description given to the stack never exceeds 1024
    characters: the only construct the constructor ever creates is the
    stack itself, with the formatted description cut to that length. *)
Theorem omics_stack_description_is_bounded
        (E : Omics.env) (id target_uri : string) (s : Omics.state) :
  exists (e : exn) (s' : Omics.state),
    Omics.__init__ E id target_uri s = (Raise e, s')
    /\ (Omics.constructs s' = Omics.constructs s
        \/ exists description : string,
            Omics.constructs s' = (Omics.constructs s ++ [Omics.CStack id description])%list
            /\ String.length description <= 1024).
Proof.
  unfold Omics.__init__.
  pose proof (get_target_run E target_uri) as Ht.
  destruct (Omics.db_get_engine E _) as [engine | e] eqn:He.
  2:{ eexists _, _. split; [erewrite bind_raised; [reflexivity | apply Ht] |]. now left. }
  erewrite bind_returned; [| apply Ht].
  destruct (Omics.pipelines E !! target_uri) as [p |] eqn:Hp.
  2:{ eexists _, _. split; [erewrite bind_raised; [reflexivity | reflexivity] |]. now left. }
  erewrite bind_returned; [| reflexivity].
  erewrite bind_returned; [| apply Ht].
  erewrite bind_returned; [| reflexivity].
  erewrite bind_returned; [| reflexivity].
  erewrite bind_returned; [| apply Ht].
  eexists _, _. split.
  - erewrite bind_raised; [reflexivity | apply get_pipeline_environment_raises].
  - right. eexists. split; [reflexivity |]. apply take_str_length.
Qed.

(** X24: where the blueprint is looked for.  The first [..] joined to
    the path of the module file only cancels the file name, so when
    every component of that path is a proper name (none is [..], [.]
    or empty), the directory is what [os.path.realpath] makes of
    [blueprints/omics_pipeline] under the directory three levels above
    the one that holds the module. *)
Theorem blueprint_directory
        (E : Omics.env) (root : list string) (d1 d2 d3 file : string) :
  Omics.module_file E = (root ++ [d1; d2; d3; file])%list ->
  Forall (fun part => part <> ".." /\ part <> "." /\ part <> EmptyString)
         (Omics.module_file E) ->
  Omics.code_dir_path E
  = Omics.realpath E (Omics.join_path (root ++ ["blueprints"; "omics_pipeline"])).
Proof.
  intros Hfile Hclean. unfold Omics.code_dir_path.
  rewrite (normpath_kept _ _ [] Hclean).
  rewrite Hfile, rev_app_distr, app_nil_r. simpl.
  now rewrite rev_involutive, <- app_assoc.
Qed.

Lemma blueprint_directory_witness :
  Omics.module_file omics_world
  = (["app"; "dataall"] ++ ["modules"; "omics"; "cdk"; "omics_stack.py"])%list
  /\ Forall (fun part => part <> ".." /\ part <> "." /\ part <> EmptyString)
            (Omics.module_file omics_world)
  /\ Omics.code_dir_path omics_world = "/app/dataall/blueprints/omics_pipeline".
Proof.
  split; [reflexivity |].
  assert (Hclean : Forall (fun part => part <> ".." /\ part <> "." /\ part <> EmptyString)
                          (Omics.module_file omics_world))
    by (repeat constructor; discriminate).
  split; [exact Hclean |].
  exact (blueprint_directory omics_world ["app"; "dataall"] "modules" "omics" "cdk"
           "omics_stack.py" eq_refl Hclean).
Defined.
